(** * VirtualDAQ: playback of a recorded dataset

    A shallow embedding of [pyratk/acquisition/virtual_daq.py].  The object
    of class [VirtualDAQ] is a record of its attributes; every method is a
    function in a small state-and-exception monad which also records the
    state reached after each statement, so that the order of the effects of
    one call can be stated.

    The calls are taken one at a time, in the order a single caller makes
    them.  The sampling thread appears through its state only: the calls it
    makes on its own are not interleaved with those of the caller. *)

From Stdlib Require Import ZArith NArith QArith List String Ascii Bool Lia.
Import ListNotations.
Local Open Scope Z_scope.

(** ** Python exceptions and arithmetic *)

Inductive exn : Type :=
| IndexError
| ValueError
| RuntimeError
| ZeroDivisionError
| TypeError
| KeyError
| AttributeError
| OverflowError
| UnicodeDecodeError.

Inductive outcome (A : Type) : Type :=
| Return (a : A)
| Raise (e : exn).
Arguments Return {A} a.
Arguments Raise {A} e.

(** [a % b] on Python integers: the result has the sign of [b], as
    [Z.modulo]; a zero divisor raises. *)
Definition py_mod (a b : Z) : outcome Z :=
  if b =? 0 then Raise ZeroDivisionError else Return (a mod b).

(** [a / b] on Python integers is true division; a zero divisor raises.  What
    is kept here is the exact quotient; the value Python computes is the
    double nearest to it. *)
Definition py_truediv (a b : Z) : outcome Q :=
  if b =? 0 then Raise ZeroDivisionError
  else Return (Qdiv (inject_Z a) (inject_Z b)).

(** The middle of the two doubles 1 - 2^-53 and 1.0. *)
Definition below_one : Q := Qminus 1 (Qmake 1 (2 ^ 54)).

(** [x < 1.0] for the double [x] nearest to the rational [q].  Going up to
    1.0 the last two doubles are 1 - 2^-53 and 1.0 itself: a rational below
    their middle is rounded to 1 - 2^-53 or lower, and one at the middle (a
    tie, which goes to the even 1.0) or above it to 1.0 or higher. *)
Definition double_lt_one (q : Q) : bool := negb (Qle_bool below_one q).

(** ** The dataset

    [h5py] is an external library.  A dataset is its sequence of chunks
    (indexed along the first axis) and its attribute dictionary.  The
    datasets represented are the open ones that have a first axis. *)

Inductive AttrVal : Type :=
| AttrNum (q : Q)
| AttrBytes (b : string)
| AttrStr (s : string).

Fixpoint attrs_get (k : string) (l : list (string * AttrVal)) : outcome AttrVal :=
  match l with
  | [] => Raise KeyError
  | (k', v) :: l' => if String.eqb k k' then Return v else attrs_get k l'
  end.

(** [lo <= b <= hi] on byte values. *)
Definition byte_in (lo hi b : N) : bool := ((lo <=? b) && (b <=? hi))%N.

(** The second byte that a first byte [b0] of a sequence of three bytes
    (E0..EF) allows: neither an overlong form nor a surrogate. *)
Definition second_of_three (b0 b1 : N) : bool :=
  if (b0 =? 224)%N then byte_in 160 191 b1
  else if (b0 =? 237)%N then byte_in 128 159 b1
  else byte_in 128 191 b1.

(** The second byte that a first byte [b0] of a sequence of four bytes
    (F0..F4) allows: neither an overlong form nor a code point above
    U+10FFFF. *)
Definition second_of_four (b0 b1 : N) : bool :=
  if (b0 =? 240)%N then byte_in 144 191 b1
  else if (b0 =? 244)%N then byte_in 128 143 b1
  else byte_in 128 191 b1.

(** Well-formed UTF-8, by the byte ranges of the Unicode standard: the byte
    strings that the strict decoder of Python accepts. *)
Fixpoint utf8_valid (l : list N) : bool :=
  match l with
  | [] => true
  | b0 :: r0 =>
      if byte_in 0 127 b0 then utf8_valid r0
      else
        match r0 with
        | [] => false
        | b1 :: r1 =>
            if byte_in 194 223 b0 then byte_in 128 191 b1 && utf8_valid r1
            else
              match r1 with
              | [] => false
              | b2 :: r2 =>
                  if byte_in 224 239 b0 then
                    second_of_three b0 b1 && byte_in 128 191 b2 && utf8_valid r2
                  else
                    match r2 with
                    | [] => false
                    | b3 :: r3 =>
                        byte_in 240 244 b0 && second_of_four b0 b1
                        && byte_in 128 191 b2 && byte_in 128 191 b3
                        && utf8_valid r3
                    end
              end
        end
  end.

(** The bytes of a byte string. *)
Definition bytes_of (b : string) : list N :=
  map N_of_ascii (list_ascii_of_string b).

(** [b.decode('utf-8')]: defined on bytes, not on str, and raising on bytes
    that are not well-formed UTF-8.  The text obtained is kept in its UTF-8
    form. *)
Definition decode (v : AttrVal) : outcome string :=
  match v with
  | AttrBytes b =>
      if utf8_valid (bytes_of b) then Return b else Raise UnicodeDecodeError
  | _ => Raise AttributeError
  end.

(** A double obtained as a quotient: a finite value, kept as the exact
    quotient, or what a division by zero gives, an infinity or nan. *)
Inductive Float : Type :=
| Finite (q : Q)
| NotFinite.

(** [x / y] on two attribute values.  h5py hands numbers out as numpy
    scalars, whose division by zero does not raise: it warns and gives an
    infinity or nan. *)
Definition attr_div (x y : AttrVal) : outcome Float :=
  match x, y with
  | AttrNum a, AttrNum b =>
      Return (if Qeq_bool b 0 then NotFinite else Finite (Qdiv a b))
  | _, _ => Raise TypeError
  end.

(** [time.sleep(self.sample_period * playback_speed)].  Whether this call
    returns is not decided here.  The product is a double, and [time.sleep]
    raises on a negative one, on nan and on one beyond the range of the
    clock; which factors lead there depends on the rounding of the product
    and on the platform.  The outcome of the call, given its two factors, is
    a parameter of the model. *)
Class TimeSleep : Type := time_sleep : Float -> Q -> outcome unit.

(** Messages written by [print]. *)
Inductive Msg : Type :=
| MsgGettingNewSample
| MsgInvalidSampleIndex (i : Z)
| MsgStepped (stride : Z).

(** State of the sampling thread [t_sampling] and its loop. *)
Inductive LoopState : Type := Paused | Running | Stopped.

Section Playback.

Context {Chunk : Type} {clock : TimeSleep}.

Record Dataset : Type := mkDataset {
  chunks : list Chunk;
  attrs : list (string * AttrVal)
}.

(** [ds.shape[0]] *)
Definition shape0 (d : Dataset) : Z := Z.of_nat (List.length (chunks d)).

(** [ds[i]]: a negative index counts from the end; an index outside the
    first axis raises [IndexError]. *)
Definition getitem (d : Dataset) (i : Z) : outcome Chunk :=
  let j := if i <? 0 then i + shape0 d else i in
  if (0 <=? j) && (j <? shape0 d) then
    match nth_error (chunks d) (Z.to_nat j) with
    | Some c => Return c
    | None => Raise IndexError
    end
  else Raise IndexError.

(** Arguments a caller can pass to [load_dataset]. *)
Inductive PyObj : Type :=
| ObjDataset (d : Dataset)
| ObjNone
| ObjInt (z : Z)
| ObjStr (s : string)
| ObjList (l : list Chunk).

(** [isinstance(o, h5py._hl.dataset.Dataset)] *)
Definition is_dataset (o : PyObj) : bool :=
  match o with
  | ObjDataset _ => true
  | _ => false
  end.

(** ** TimeSeries *)

(** Modelled from the spec: [pyratk.datatypes.ts_data.TimeSeries] is not part
    of the sources at hand.  Following the spec's RingHistory it is a buffer
    of fixed capacity [ts_length] whose [append] evicts the oldest entry if at
    capacity before inserting, and never fails. *)
Record TimeSeries : Type := mkTimeSeries {
  ts_length : nat;
  ts_shape : AttrVal * AttrVal;
  ts_entries : list (option Chunk)
}.

Definition TimeSeries_new (length : nat) (shape : AttrVal * AttrVal) : TimeSeries :=
  mkTimeSeries length shape [].

Definition ts_append (t : TimeSeries) (x : option Chunk) : TimeSeries :=
  let kept := if (List.length (ts_entries t) <? ts_length t)%nat
              then ts_entries t else tl (ts_entries t) in
  mkTimeSeries (ts_length t) (ts_shape t) (kept ++ [x]).

(** ** The object *)

Record VirtualDAQ : Type := mkDAQ {
  sample_rate : option AttrVal;
  sample_chunk_size : option AttrVal;
  daq_type : option string;
  num_channels : option AttrVal;
  paused : bool;
  reset_flag : bool;
  sample_period : option Float;
  data : option Chunk;
  ds : option Dataset;
  sample_index : Z;
  data_available : bool;                (* threading.Event: is it set *)
  reset_lock : bool;                    (* threading.Event: is it set *)
  t_sampling : LoopState;
  buffer : list (option Chunk * Z);
  ts_buffer : option TimeSeries;        (* None: the attribute does not exist yet *)
  stdout : list Msg;                    (* what was printed, oldest first *)
  slept : list (Float * Q)              (* the factors of the delays slept *)
}.

(** [__init__] *)
Definition VirtualDAQ_init : VirtualDAQ :=
  {| sample_rate := None; sample_chunk_size := None; daq_type := None;
     num_channels := None; paused := true; reset_flag := false;
     sample_period := None; data := None; ds := None; sample_index := 0;
     data_available := false; reset_lock := false; t_sampling := Paused;
     buffer := []; ts_buffer := None; stdout := []; slept := [] |}.

Definition set_sample_rate v (s : VirtualDAQ) : VirtualDAQ :=
  mkDAQ v (sample_chunk_size s) (daq_type s) (num_channels s) (paused s)
    (reset_flag s) (sample_period s) (data s) (ds s) (sample_index s)
    (data_available s) (reset_lock s) (t_sampling s) (buffer s) (ts_buffer s)
    (stdout s) (slept s).
Definition set_sample_chunk_size v (s : VirtualDAQ) : VirtualDAQ :=
  mkDAQ (sample_rate s) v (daq_type s) (num_channels s) (paused s)
    (reset_flag s) (sample_period s) (data s) (ds s) (sample_index s)
    (data_available s) (reset_lock s) (t_sampling s) (buffer s) (ts_buffer s)
    (stdout s) (slept s).
Definition set_daq_type v (s : VirtualDAQ) : VirtualDAQ :=
  mkDAQ (sample_rate s) (sample_chunk_size s) v (num_channels s) (paused s)
    (reset_flag s) (sample_period s) (data s) (ds s) (sample_index s)
    (data_available s) (reset_lock s) (t_sampling s) (buffer s) (ts_buffer s)
    (stdout s) (slept s).
Definition set_num_channels v (s : VirtualDAQ) : VirtualDAQ :=
  mkDAQ (sample_rate s) (sample_chunk_size s) (daq_type s) v (paused s)
    (reset_flag s) (sample_period s) (data s) (ds s) (sample_index s)
    (data_available s) (reset_lock s) (t_sampling s) (buffer s) (ts_buffer s)
    (stdout s) (slept s).
Definition set_paused v (s : VirtualDAQ) : VirtualDAQ :=
  mkDAQ (sample_rate s) (sample_chunk_size s) (daq_type s) (num_channels s) v
    (reset_flag s) (sample_period s) (data s) (ds s) (sample_index s)
    (data_available s) (reset_lock s) (t_sampling s) (buffer s) (ts_buffer s)
    (stdout s) (slept s).
Definition set_reset_flag v (s : VirtualDAQ) : VirtualDAQ :=
  mkDAQ (sample_rate s) (sample_chunk_size s) (daq_type s) (num_channels s)
    (paused s) v (sample_period s) (data s) (ds s) (sample_index s)
    (data_available s) (reset_lock s) (t_sampling s) (buffer s) (ts_buffer s)
    (stdout s) (slept s).
Definition set_sample_period v (s : VirtualDAQ) : VirtualDAQ :=
  mkDAQ (sample_rate s) (sample_chunk_size s) (daq_type s) (num_channels s)
    (paused s) (reset_flag s) v (data s) (ds s) (sample_index s)
    (data_available s) (reset_lock s) (t_sampling s) (buffer s) (ts_buffer s)
    (stdout s) (slept s).
Definition set_data v (s : VirtualDAQ) : VirtualDAQ :=
  mkDAQ (sample_rate s) (sample_chunk_size s) (daq_type s) (num_channels s)
    (paused s) (reset_flag s) (sample_period s) v (ds s) (sample_index s)
    (data_available s) (reset_lock s) (t_sampling s) (buffer s) (ts_buffer s)
    (stdout s) (slept s).
Definition set_ds v (s : VirtualDAQ) : VirtualDAQ :=
  mkDAQ (sample_rate s) (sample_chunk_size s) (daq_type s) (num_channels s)
    (paused s) (reset_flag s) (sample_period s) (data s) v (sample_index s)
    (data_available s) (reset_lock s) (t_sampling s) (buffer s) (ts_buffer s)
    (stdout s) (slept s).
Definition set_sample_index v (s : VirtualDAQ) : VirtualDAQ :=
  mkDAQ (sample_rate s) (sample_chunk_size s) (daq_type s) (num_channels s)
    (paused s) (reset_flag s) (sample_period s) (data s) (ds s) v
    (data_available s) (reset_lock s) (t_sampling s) (buffer s) (ts_buffer s)
    (stdout s) (slept s).
Definition set_data_available v (s : VirtualDAQ) : VirtualDAQ :=
  mkDAQ (sample_rate s) (sample_chunk_size s) (daq_type s) (num_channels s)
    (paused s) (reset_flag s) (sample_period s) (data s) (ds s) (sample_index s)
    v (reset_lock s) (t_sampling s) (buffer s) (ts_buffer s)
    (stdout s) (slept s).
Definition set_t_sampling v (s : VirtualDAQ) : VirtualDAQ :=
  mkDAQ (sample_rate s) (sample_chunk_size s) (daq_type s) (num_channels s)
    (paused s) (reset_flag s) (sample_period s) (data s) (ds s) (sample_index s)
    (data_available s) (reset_lock s) v (buffer s) (ts_buffer s)
    (stdout s) (slept s).
Definition set_buffer v (s : VirtualDAQ) : VirtualDAQ :=
  mkDAQ (sample_rate s) (sample_chunk_size s) (daq_type s) (num_channels s)
    (paused s) (reset_flag s) (sample_period s) (data s) (ds s) (sample_index s)
    (data_available s) (reset_lock s) (t_sampling s) v (ts_buffer s)
    (stdout s) (slept s).
Definition set_ts_buffer v (s : VirtualDAQ) : VirtualDAQ :=
  mkDAQ (sample_rate s) (sample_chunk_size s) (daq_type s) (num_channels s)
    (paused s) (reset_flag s) (sample_period s) (data s) (ds s) (sample_index s)
    (data_available s) (reset_lock s) (t_sampling s) (buffer s) v
    (stdout s) (slept s).
Definition set_stdout v (s : VirtualDAQ) : VirtualDAQ :=
  mkDAQ (sample_rate s) (sample_chunk_size s) (daq_type s) (num_channels s)
    (paused s) (reset_flag s) (sample_period s) (data s) (ds s) (sample_index s)
    (data_available s) (reset_lock s) (t_sampling s) (buffer s) (ts_buffer s)
    v (slept s).
Definition set_slept v (s : VirtualDAQ) : VirtualDAQ :=
  mkDAQ (sample_rate s) (sample_chunk_size s) (daq_type s) (num_channels s)
    (paused s) (reset_flag s) (sample_period s) (data s) (ds s) (sample_index s)
    (data_available s) (reset_lock s) (t_sampling s) (buffer s) (ts_buffer s)
    (stdout s) v.

(** ** The monad of methods

    A computation takes the object, and gives back its outcome (a value or a
    raised exception), the object as it is then, and the list of the states
    the object went through: one entry after each statement that wrote to
    the object or to the outside (print, sleep), oldest first. *)

Definition M (A : Type) : Type :=
  VirtualDAQ -> outcome A * VirtualDAQ * list VirtualDAQ.

Definition ret {A} (a : A) : M A := fun s => (Return a, s, []).

Definition bind {A B} (m : M A) (f : A -> M B) : M B :=
  fun s =>
    match m s with
    | (Return a, s1, tr1) =>
        match f a s1 with
        | (r, s2, tr2) => (r, s2, tr1 ++ tr2)
        end
    | (Raise e, s1, tr1) => (Raise e, s1, tr1)
    end.

Definition raise {A} (e : exn) : M A := fun s => (Raise e, s, []).

(** Read an attribute of [self]. *)
Definition gets {A} (f : VirtualDAQ -> A) : M A := fun s => (Return (f s), s, []).

(** One statement that writes. *)
Definition modify (f : VirtualDAQ -> VirtualDAQ) : M unit :=
  fun s => (Return tt, f s, [f s]).

(** The value of an expression that may raise. *)
Definition lift {A} (r : outcome A) : M A := fun s => (r, s, []).

(** [try: body except e: handler] *)
Definition try_except (body : M unit) (caught : exn -> bool) (handler : M unit) : M unit :=
  fun s =>
    match body s with
    | (Raise e, s1, tr1) =>
        if caught e then
          match handler s1 with
          | (r, s2, tr2) => (r, s2, tr1 ++ tr2)
          end
        else (Raise e, s1, tr1)
    | ok => ok
    end.

Definition outcome_of {A} (m : M A) (s : VirtualDAQ) : outcome A := fst (fst (m s)).
Definition state_of {A} (m : M A) (s : VirtualDAQ) : VirtualDAQ := snd (fst (m s)).
Definition trace_of {A} (m : M A) (s : VirtualDAQ) : list VirtualDAQ := snd (m s).

Notation "x <- m ;; k" := (bind m (fun x => k))
  (at level 61, m at next level, right associativity).
Notation "m ;; k" := (bind m (fun _ => k))
  (at level 61, right associativity).

(** ** Library calls *)

(** [print(...)] *)
Definition print (m : Msg) : M unit :=
  modify (fun s => set_stdout (stdout s ++ [m]) s).

(** [time.sleep(self.sample_period * playback_speed)]: [None * float] is a
    [TypeError]; otherwise the call raises what [time_sleep] says, or returns
    once the delay has been slept. *)
Definition sleep_period (playback_speed : Q) : M unit :=
  p <- gets sample_period ;;
  match p with
  | None => raise TypeError
  | Some p =>
      lift (time_sleep p playback_speed) ;;
      modify (fun s => set_slept (slept s ++ [(p, playback_speed)]) s)
  end.

(** ** Methods inherited from [daq.DAQ] *)

(** Modelled from the spec: [daq.DAQ.close] is not part of the sources at
    hand.  The spec has it stop and join any running loop: the loop is
    [Stopped] when it returns. *)
Definition close : M unit :=
  modify (set_t_sampling Stopped).

(** Modelled from the spec: [daq.DAQ.run] is not part of the sources at hand.
    The spec has it restart playback ([Running]) with a freshly created
    thread. *)
Definition run : M unit :=
  modify (fun s => set_paused false (set_t_sampling Running s)).

(** ** Methods of [VirtualDAQ] *)

(** [reset] *)
Definition reset : M unit :=
  close ;;
  modify (set_buffer []) ;;
  modify (set_sample_index 0) ;;
  modify (set_reset_flag true) ;;
  run.

(** [load_dataset].  The statement [raise(TypeError, "...", type(ds))] raises
    a tuple; Python answers that with a [TypeError] of its own. *)
Definition load_dataset (o : PyObj) : M unit :=
  match o with
  | ObjDataset d =>
      reset ;;
      modify (set_ds (Some d)) ;;
      modify (set_sample_index 0) ;;
      (* Load attributes *)
      rate <- lift (attrs_get "sample_rate" (attrs d)) ;;
      modify (set_sample_rate (Some rate)) ;;
      size <- lift (attrs_get "sample_size" (attrs d)) ;;
      modify (set_sample_chunk_size (Some size)) ;;
      tag <- lift (attrs_get "daq_type" (attrs d)) ;;
      tag <- lift (decode tag) ;;
      modify (set_daq_type (Some tag)) ;;
      channels <- lift (attrs_get "num_channels" (attrs d)) ;;
      modify (set_num_channels (Some channels)) ;;
      period <- lift (attr_div size rate) ;;
      modify (set_sample_period (Some period)) ;;
      (* Create data buffers *)
      let length := 4096%nat in
      let shape := (channels, size) in
      modify (set_ts_buffer (Some (TimeSeries_new length shape)))
  | _ => raise TypeError
  end.

(** [self.data = self.ds[self.sample_index]] *)
Definition fetch (d : Dataset) : M unit :=
  i <- gets sample_index ;;
  c <- lift (getitem d i) ;;
  modify (set_data (Some c)).

(** [self.buffer.append((self.data, self.sample_index))] *)
Definition buffer_append : M unit :=
  modify (fun s => set_buffer (buffer s ++ [(data s, sample_index s)]) s).

(** [self.ts_buffer.append(self.data)] *)
Definition ts_buffer_append : M unit :=
  t <- gets ts_buffer ;;
  match t with
  | None => raise AttributeError
  | Some t => modify (fun s => set_ts_buffer (Some (ts_append t (data s))) s)
  end.

(** [self.sample_index = (self.sample_index + stride) % self.ds.shape[0]] *)
Definition advance (d : Dataset) (stride : Z) : M unit :=
  i <- gets sample_index ;;
  i' <- lift (py_mod (i + stride) (shape0 d)) ;;
  modify (set_sample_index i').

(** [(self.sample_index + stride) % self.ds.shape[0] / stride < 1.0]: the
    operators [%] and [/] have the same precedence and group to the left. *)
Definition more_data (d : Dataset) (stride : Z) : M bool :=
  i <- gets sample_index ;;
  r <- lift (py_mod (i + stride) (shape0 d)) ;;
  q <- lift (py_truediv r stride) ;;
  ret (double_lt_one q).

(** [get_samples] *)
Definition get_samples (stride loop : Z) (playback_speed : Q) : M bool :=
  d <- gets ds ;;
  match d with
  | Some d =>
      print MsgGettingNewSample ;;
      (* Read in samples from dataset *)
      try_except (fetch d)
        (fun e => match e with IndexError => true | _ => false end)
        (i <- gets sample_index ;; print (MsgInvalidSampleIndex i)) ;;
      (* Delay by sample period *)
      (if (loop =? -1) || (loop =? 1) then sleep_period playback_speed
       else if loop =? 0 then print (MsgStepped stride)
       else raise ValueError) ;;
      buffer_append ;;
      ts_buffer_append ;;
      (* Set the update event to True once data is read in *)
      modify (set_data_available true) ;;
      (* Incriment time index and loop around at end of dataset *)
      advance d stride ;;
      (* Return True if more data *)
      more_data d stride
  | None => raise RuntimeError
  end.

(** [n] calls of [get_samples] in a row with the same arguments, as a caller
    stepping through the recording makes them; a call that raises ends the
    sequence. *)
Fixpoint ticks (n : nat) (stride loop : Z) (playback_speed : Q) : M unit :=
  match n with
  | O => ret tt
  | S n' => get_samples stride loop playback_speed ;;
            ticks n' stride loop playback_speed
  end.

(** The pacing step goes through: single-step mode, or a continuous mode
    with a sample period in which the call of [time.sleep] returns. *)
Definition pacing_ok (loop : Z) (playback_speed : Q) (s : VirtualDAQ) : Prop :=
  loop = 0 \/
  ((loop = -1 \/ loop = 1) /\
   exists p, sample_period s = Some p /\ time_sleep p playback_speed = Return tt).

(** What [self.data] holds once the fetch statement is over. *)
Definition fetched (d : Dataset) (s : VirtualDAQ) : option Chunk :=
  match getitem d (sample_index s) with
  | Return c => Some c
  | Raise _ => data s
  end.

(** The pairs that [n] calls in a row append to [buffer], in the order of the
    calls: [held] is what [data] holds before the first of them and [i] is
    the cursor there. *)
Fixpoint appended_pairs (n : nat) (d : Dataset) (stride : Z)
    (held : option Chunk) (i : Z) : list (option Chunk * Z) :=
  match n with
  | O => []
  | S n' =>
      let held' := match getitem d i with Return c => Some c | Raise _ => held end in
      (held', i) :: appended_pairs n' d stride held' ((i + stride) mod shape0 d)
  end.

(** The cursor after [n] calls in a row that started with the cursor at [i]. *)
Fixpoint cursor_after (n : nat) (d : Dataset) (stride : Z) (i : Z) : Z :=
  match n with
  | O => i
  | S n' => cursor_after n' d stride ((i + stride) mod shape0 d)
  end.

(** What one call that gets past the pacing step has done to the object by
    the time the event is set. *)
Definition tick_effects (d : Dataset) (t : TimeSeries) (s s' : VirtualDAQ) : Prop :=
  ds s' = Some d /\
  data s' = fetched d s /\
  buffer s' = buffer s ++ [(fetched d s, sample_index s)] /\
  ts_buffer s' = Some (ts_append t (fetched d s)) /\
  data_available s' = true /\
  sample_period s' = sample_period s.

End Playback.

Arguments Dataset : clear implicits.
Arguments PyObj : clear implicits.
Arguments TimeSeries : clear implicits.
Arguments VirtualDAQ : clear implicits.
Arguments M : clear implicits.

(** ** Recordings used in the examples *)

Definition nidaq_attrs : list (string * AttrVal) :=
  [("sample_rate", AttrNum 1000); ("sample_size", AttrNum 100);
   ("daq_type", AttrBytes "nidaq"); ("num_channels", AttrNum 2)]%string.

(** Three chunks, standing for C0, C1 and C2. *)
Definition ds3 : Dataset nat := mkDataset [10; 11; 12]%nat nidaq_attrs.

(** The same recording cut down to its first chunk. *)
Definition ds1 : Dataset nat := mkDataset [10]%nat nidaq_attrs.

(** A recording with no chunk at all. *)
Definition ds_empty : Dataset nat := mkDataset [] nidaq_attrs.

(** A dataset without the attributes [load_dataset] reads. *)
Definition ds_bare : Dataset nat := mkDataset [10; 11; 12]%nat [].

(** Four chunks. *)
Definition ds4 : Dataset nat := mkDataset [10; 11; 12; 13]%nat nidaq_attrs.

(** A clock for the examples.  It sleeps through a delay from 0 to 10^9
    seconds, and it raises on a delay of a nanosecond or more below 0
    ([ValueError]) and on one of 10^10 seconds or more ([OverflowError]), as
    [time.sleep] does; on a period that is not finite it raises what
    [time.sleep] raises on an infinity.  Between these ranges the outcome of
    [time.sleep] hangs on the rounding of the product and on the range of
    the clock of the platform: this clock returns there, and no example
    takes it there. *)
#[global] Instance example_clock : TimeSleep :=
  fun p speed =>
    match p with
    | Finite q =>
        let delay := Qmult q speed in
        if Qle_bool delay (Qopp (Qmake 1 (10 ^ 9))) then Raise ValueError
        else if Qle_bool (inject_Z (10 ^ 10)) delay then Raise OverflowError
        else Return tt
    | NotFinite => Raise OverflowError
    end.

(** A new object with [ds3] loaded. *)
Definition loaded3 : VirtualDAQ nat :=
  state_of (load_dataset (ObjDataset ds3)) VirtualDAQ_init.

(** A new object with [ds1] loaded. *)
Definition loaded1 : VirtualDAQ nat :=
  state_of (load_dataset (ObjDataset ds1)) VirtualDAQ_init.

(** A new object with the empty recording loaded. *)
Definition loaded_empty : VirtualDAQ nat :=
  state_of (load_dataset (ObjDataset ds_empty)) VirtualDAQ_init.

(** A new object with [ds4] loaded. *)
Definition loaded4 : VirtualDAQ nat :=
  state_of (load_dataset (ObjDataset ds4)) VirtualDAQ_init.

(** [loaded3] after one single step. *)
Definition stepped3 : VirtualDAQ nat :=
  state_of (get_samples 1 0 1) loaded3.

(** Two single steps into [ds3] the consumer has cleared the event, and the
    dataset has shrunk to one chunk: the cursor, at 2, is outside of it. *)
Definition shrunk : VirtualDAQ nat :=
  set_ds (Some ds1)
    (set_data_available false (state_of (ticks 2 1 0 1) loaded3)).

(** ** Tactics *)

Ltac unfold_monad :=
  unfold get_samples, fetch, buffer_append, ts_buffer_append, advance, more_data,
    sleep_period, print, try_except, bind, gets, modify, lift, raise, ret,
    py_mod, py_truediv in *.

Ltac bool_to_prop :=
  repeat match goal with
         | H : context [(_ =? _) = true] |- _ => rewrite Z.eqb_eq in H
         | H : context [(_ =? _) = false] |- _ => rewrite Z.eqb_neq in H
         | H : context [_ || _ = true] |- _ => rewrite orb_true_iff in H
         | H : context [_ || _ = false] |- _ => rewrite orb_false_iff in H
         end.

(** Settle a closed statement about the recordings above by running the
    code. *)
Ltac by_computation :=
  vm_compute; repeat split; try reflexivity; try discriminate.

Section Properties.

Context {Chunk : Type} {clock : TimeSleep}.
Implicit Types (s : VirtualDAQ Chunk) (d : Dataset Chunk) (t : TimeSeries Chunk).
Implicit Types (stride loop : Z) (pb : Q).

(** ** Basic facts *)

Lemma shape0_nonneg d : 0 <= shape0 d.
Proof. unfold shape0. lia. Qed.

Lemma getitem_cases d (i : Z) :
  (exists c, getitem d i = Return c) \/ getitem d i = Raise IndexError.
Proof.
  unfold getitem.
  destruct ((0 <=? _) && _); [|now right].
  destruct (nth_error _ _); [left; eauto | now right].
Qed.

Lemma getitem_in_range d (i : Z) :
  0 <= i < shape0 d ->
  exists c, getitem d i = Return c /\ nth_error (chunks d) (Z.to_nat i) = Some c.
Proof.
  intros Hi. unfold getitem.
  destruct (Z.ltb_spec i 0); [lia|].
  destruct (Z.leb_spec 0 i); [|lia].
  destruct (Z.ltb_spec i (shape0 d)); [|lia]. simpl.
  destruct (nth_error (chunks d) (Z.to_nat i)) eqn:E; [eauto|].
  apply nth_error_None in E. unfold shape0 in *. lia.
Qed.

(** Run a method symbolically inside hypothesis [H], splitting on each test
    the code makes as it comes up. *)
Ltac exec_in H :=
  repeat (simpl in H;
          match type of H with
          | context [match ds ?s with _ => _ end] =>
              destruct (ds s) eqn:?
          | context [match getitem ?d ?i with _ => _ end] =>
              let Hc := fresh "Hfetch" in
              destruct (getitem_cases d i) as [[? Hc]|Hc]; rewrite Hc in H
          | context [match sample_period ?s with _ => _ end] =>
              destruct (sample_period s) eqn:?
          | context [match time_sleep ?p ?v with _ => _ end] =>
              destruct (time_sleep p v) as [[]|] eqn:?
          | context [match ts_buffer ?s with _ => _ end] =>
              destruct (ts_buffer s) eqn:?
          | context [match attrs_get ?k ?l with _ => _ end] =>
              destruct (attrs_get k l) eqn:?
          | context [match decode ?v with _ => _ end] =>
              destruct (decode v) eqn:?
          | context [match attr_div ?x ?y with _ => _ end] =>
              destruct (attr_div x y) eqn:?
          | context [if ?b then _ else _] =>
              destruct b eqn:?
          end).

Lemma get_samples_inv s s' stride loop pb b tr :
  get_samples stride loop pb s = (Return b, s', tr) ->
  exists d t,
    ds s = Some d /\ ts_buffer s = Some t /\ pacing_ok loop pb s /\
    shape0 d <> 0 /\ stride <> 0 /\
    tick_effects d t s s' /\
    sample_index s' = (sample_index s + stride) mod shape0 d /\
    b = double_lt_one (Qdiv (inject_Z ((sample_index s' + stride) mod shape0 d))
                            (inject_Z stride)).
Proof.
  intros H. unfold_monad. exec_in H; try discriminate.
  all: inversion H; subst; clear H; bool_to_prop.
  all: eexists; eexists; repeat split; simpl; eauto.
  all: unfold pacing_ok, fetched; try rewrite Hfetch; eauto.
Qed.

Lemma get_samples_ok s d t stride loop pb :
  ds s = Some d -> ts_buffer s = Some t -> pacing_ok loop pb s ->
  shape0 d <> 0 -> stride <> 0 ->
  exists b s' tr, get_samples stride loop pb s = (Return b, s', tr).
Proof.
  intros Hds Hts Hp Hn Hs.
  destruct (get_samples stride loop pb s) as [[r s'] tr] eqn:H.
  unfold_monad. exec_in H; bool_to_prop; try congruence.
  all: inversion H; subst; clear H; eauto.
  all: destruct Hp as [->|[Hl [p [Hp1 Hp2]]]]; try lia; try congruence.
Qed.

(** ** Calls without a dataset *)

(** C7 (amended): a call of [get_samples] made while [ds] is [None] raises
    [RuntimeError] and leaves the object as it was, with nothing written on
    the way.  A [load_dataset] turned down for the type of its argument
    leaves the object as it was too, so [ds] is still [None] after it.  A
    [load_dataset] on an h5py dataset sets [ds] whether it goes on to return
    or to raise: with the first such call this comes to an end. *)
Theorem get_samples_not_ready s stride loop pb :
  ds s = None ->
  get_samples stride loop pb s = (Raise RuntimeError, s, []) /\
  (forall o : PyObj Chunk, is_dataset o = false -> state_of (load_dataset o) s = s) /\
  (forall d, ds (state_of (load_dataset (ObjDataset d)) s) = Some d).
Proof.
  intros H. split; [|split].
  - unfold get_samples, bind, gets, raise. now rewrite H.
  - intros o Ho. destruct o; simpl in Ho; try discriminate; reflexivity.
  - intros d. unfold state_of.
    destruct (load_dataset (ObjDataset d) s) as [[r s'] tr] eqn:E.
    unfold load_dataset, reset, close, run, bind, lift, modify in E.
    exec_in E; inversion E; subst; reflexivity.
Qed.

(** ** Arguments of [load_dataset] *)

(** C9 (amended): an argument that is not an h5py dataset makes
    [load_dataset] raise [TypeError] with the object untouched. *)
Theorem load_dataset_rejects_non_dataset (o : PyObj Chunk) s :
  is_dataset o = false ->
  load_dataset o s = (Raise TypeError, s, []).
Proof.
  destruct o; simpl; intros H; try discriminate; reflexivity.
Qed.

(** ** The pacing argument *)

(** C3 (amended): with a dataset loaded and [loop] not in -1, 0, 1 the call
    raises [ValueError]; nothing is appended, the event is not set and the
    cursor stays, at the end and at every state in between.  Apart from what
    was printed, the one attribute that may differ is [data], which holds
    what the fetch left there. *)
Theorem get_samples_rejects_loop s d stride loop pb :
  ds s = Some d -> loop <> -1 -> loop <> 0 -> loop <> 1 ->
  exists s' tr,
    get_samples stride loop pb s = (Raise ValueError, s', tr) /\
    data s' = fetched d s /\
    set_stdout (stdout s) (set_data (data s) s') = s /\
    Forall (fun x => buffer x = buffer s /\ ts_buffer x = ts_buffer s /\
                     data_available x = data_available s /\
                     sample_index x = sample_index s) (tr ++ [s']).
Proof.
  intros Hds H1 H2 H3.
  destruct (get_samples stride loop pb s) as [[r s'] tr] eqn:H.
  unfold_monad. exec_in H; bool_to_prop; try congruence; try lia.
  all: inversion H; subst; clear H.
  all: eexists; eexists; split; [reflexivity|].
  all: unfold fetched; replace d with d0 by congruence; rewrite Hfetch.
  all: repeat split; simpl; try (destruct s; reflexivity).
  all: repeat constructor.
Qed.

(** ** A zero stride *)

(** C10 (amended): with a dataset loaded, [get_samples(stride=0, loop=0)]
    raises [ZeroDivisionError], and by then the chunk has been appended to
    the history and the event has been set.  With the cursor inside the
    dataset the statement that moves the cursor has run and left it where it
    was, and it is the expression of the return statement that raises.  On
    an empty dataset it is the statement that moves the cursor that raises;
    on any other the cursor ends at the old cursor modulo the number of
    chunks. *)
Theorem get_samples_zero_stride s d t pb :
  ds s = Some d -> ts_buffer s = Some t ->
  exists s' tr,
    get_samples 0 0 pb s = (Raise ZeroDivisionError, s', tr) /\
    buffer s' = buffer s ++ [(fetched d s, sample_index s)] /\
    ts_buffer s' = Some (ts_append t (fetched d s)) /\
    data_available s' = true /\
    (0 <= sample_index s < shape0 d ->
     sample_index s' = sample_index s /\
     (exists c, getitem d (sample_index s) = Return c /\ data s' = Some c) /\
     (exists s4, In s4 tr /\ advance d 0 s4 = (Return tt, s', [s'])) /\
     more_data d 0 s' = (Raise ZeroDivisionError, s', [])) /\
    (shape0 d = 0 ->
     sample_index s' = sample_index s /\
     advance d 0 s' = (Raise ZeroDivisionError, s', [])) /\
    (shape0 d <> 0 -> sample_index s' = sample_index s mod shape0 d).
Proof.
  intros Hds Hts.
  destruct (get_samples 0 0 pb s) as [[r s'] tr] eqn:H.
  unfold_monad. exec_in H; bool_to_prop; try congruence; try lia.
  all: inversion H; subst; clear H.
  all: eexists; eexists; split; [reflexivity|].
  all: unfold fetched; replace d with d0 by congruence; rewrite Hfetch.
  all: replace t with t0 by congruence.
  all: do 3 (split; [solve [simpl; auto]|]).
  all: split; [intros Hr; simpl in Hr | split; [intros He | intros Hne]].
  all: try lia.
  all: try (destruct (getitem_in_range d0 _ Hr) as [c [Hc _]]; congruence).
  all: simpl; rewrite ?Z.add_0_r.
  all: try (destruct (Z.eqb_spec (shape0 d0) 0) as [Hz|Hz]; [|lia]).
  all: try solve [split; reflexivity].
  all: try reflexivity.
  rewrite Z.mod_small by lia.
  destruct (Z.eqb_spec (shape0 d0) 0) as [|_]; [lia|].
  split; [reflexivity|]. split; [eauto|]. split.
  - eexists. split; [do 5 right; left; reflexivity|].
    simpl. rewrite Z.add_0_r, Z.mod_small by lia. reflexivity.
  - simpl. reflexivity.
Qed.

(** ** Order of the append and the event *)

(** C8: take a call of [get_samples] that starts with the event clear, and
    any state the object is in after one of its statements, or at its end.
    If the event is set there, the pair of the chunk held in [data] (the one
    fetched by this call when the fetch went through) and of its index is
    already the last entry of [buffer], and the chunk is in [ts_buffer]. *)
Theorem signal_follows_append s stride loop pb x :
  data_available s = false ->
  In x (trace_of (get_samples stride loop pb) s
        ++ [state_of (get_samples stride loop pb) s]) ->
  data_available x = true ->
  exists d t,
    ds s = Some d /\ ts_buffer s = Some t /\
    data x = fetched d s /\
    buffer x = buffer s ++ [(fetched d s, sample_index s)] /\
    ts_buffer x = Some (ts_append t (fetched d s)).
Proof.
  intros Hclear Hin Hset. unfold trace_of, state_of in Hin.
  destruct (get_samples stride loop pb s) as [[r s'] tr] eqn:H.
  unfold_monad. exec_in H; inversion H; subst; clear H; simpl in Hin.
  all: repeat (destruct Hin as [<-|Hin]; [simpl in Hset; try congruence|]);
    try contradiction.
  all: eexists; eexists; split; [reflexivity|]; split; [reflexivity|].
  all: unfold fetched; rewrite Hfetch; simpl; auto.
Qed.

(** ** Calls in a row *)

Lemma pacing_ok_preserved loop pb s s' :
  sample_period s' = sample_period s -> pacing_ok loop pb s -> pacing_ok loop pb s'.
Proof. unfold pacing_ok. intros ->. auto. Qed.

Lemma ticks_S_inv n stride loop pb s s' tr :
  ticks (S n) stride loop pb s = (Return tt, s', tr) ->
  exists b s1 tr1 tr2,
    get_samples stride loop pb s = (Return b, s1, tr1) /\
    ticks n stride loop pb s1 = (Return tt, s', tr2) /\
    tr = tr1 ++ tr2.
Proof.
  simpl. unfold bind at 1.
  destruct (get_samples stride loop pb s) as [[[b|e] s1] tr1] eqn:H1;
    [|discriminate].
  destruct (ticks n stride loop pb s1) as [[r s2] tr2] eqn:H2.
  intros H. inversion H; subst. do 4 eexists. repeat split; eauto.
Qed.

Lemma ticks_ok n : forall s d t stride loop pb,
  ds s = Some d -> ts_buffer s = Some t -> pacing_ok loop pb s ->
  shape0 d <> 0 -> stride <> 0 ->
  exists s' tr, ticks n stride loop pb s = (Return tt, s', tr).
Proof.
  induction n as [|n IH]; intros s d t stride loop pb Hds Hts Hp Hn Hs.
  - simpl. unfold ret. eauto.
  - destruct (get_samples_ok s d t stride loop pb) as (b & s1 & tr1 & H1); auto.
    destruct (get_samples_inv _ _ _ _ _ _ _ H1)
      as (d' & t' & Hd & _ & _ & _ & _ & (Hd1 & _ & _ & Ht1 & _ & Hp1) & _).
    assert (d' = d) by congruence. subst d'.
    destruct (IH s1 d _ stride loop pb Hd1 Ht1) as (s' & tr & H2); auto.
    + eapply pacing_ok_preserved; eauto.
    + simpl. unfold bind. rewrite H1, H2. eauto.
Qed.

Lemma ticks_inv n : forall s s' d t stride loop pb tr,
  ds s = Some d -> ts_buffer s = Some t ->
  ticks n stride loop pb s = (Return tt, s', tr) ->
  ds s' = Some d /\ (exists t', ts_buffer s' = Some t') /\
  sample_period s' = sample_period s /\
  sample_index s' = cursor_after n d stride (sample_index s) /\
  buffer s' = buffer s ++ appended_pairs n d stride (data s) (sample_index s).
Proof.
  induction n as [|n IH]; intros s s' d t stride loop pb tr Hds Hts H.
  - simpl in *. unfold ret in H. inversion H; subst.
    rewrite app_nil_r. eauto 6.
  - apply ticks_S_inv in H. destruct H as (b & s1 & tr1 & tr2 & H1 & H2 & _).
    destruct (get_samples_inv _ _ _ _ _ _ _ H1)
      as (d' & t' & Hd & _ & _ & _ & _ & (Hd1 & Hdat & Hbuf & Ht1 & _ & Hp1) & Hidx & _).
    assert (d' = d) by congruence. subst d'.
    destruct (IH s1 s' d _ stride loop pb tr2 Hd1 Ht1 H2)
      as (Hd2 & Ht2 & Hp2 & Hi2 & Hb2).
    split; [assumption|]. split; [assumption|]. split; [congruence|]. split.
    + rewrite Hi2, Hidx. reflexivity.
    + rewrite Hb2, Hbuf, Hdat, Hidx, <- app_assoc. reflexivity.
Qed.

Lemma ticks_ts_buffer n : forall s s' d t stride loop pb tr,
  ds s = Some d -> ts_buffer s = Some t ->
  ticks n stride loop pb s = (Return tt, s', tr) ->
  ts_buffer s'
  = Some (fold_left ts_append
            (map fst (appended_pairs n d stride (data s) (sample_index s))) t).
Proof.
  induction n as [|n IH]; intros s s' d t stride loop pb tr Hds Hts H.
  - simpl in *. unfold ret in H. inversion H; subst. assumption.
  - apply ticks_S_inv in H. destruct H as (b & s1 & tr1 & tr2 & H1 & H2 & _).
    destruct (get_samples_inv _ _ _ _ _ _ _ H1)
      as (d' & t' & Hd & Ht & _ & _ & _ & (Hd1 & Hdat & _ & Ht1 & _) & Hidx & _).
    assert (d' = d) by congruence. assert (t' = t) by congruence. subst d' t'.
    rewrite (IH s1 s' d _ stride loop pb tr2 Hd1 Ht1 H2), Hdat, Hidx.
    reflexivity.
Qed.

Lemma appended_pairs_length n : forall d stride held i,
  List.length (appended_pairs n d stride held i) = n.
Proof. induction n; simpl; intros; auto. Qed.

(** ** The history list *)

(** C2 (amended): [buffer] is a plain list without a capacity.  After [n]
    calls in a row that return, it is the list from before followed by the
    [n] appended pairs in the order of the calls: its length has grown by
    [n] and nothing has been evicted. *)
Theorem buffer_keeps_every_pair n s s' d t stride loop pb tr :
  ds s = Some d -> ts_buffer s = Some t ->
  ticks n stride loop pb s = (Return tt, s', tr) ->
  buffer s' = buffer s ++ appended_pairs n d stride (data s) (sample_index s) /\
  List.length (buffer s') = (List.length (buffer s) + n)%nat.
Proof.
  intros Hds Hts H.
  destruct (ticks_inv n _ _ _ _ _ _ _ _ Hds Hts H) as (_ & _ & _ & _ & Hb).
  split; [exact Hb|].
  now rewrite Hb, length_app, appended_pairs_length.
Qed.

(** ** The cursor *)

(** C5: a call that returns leaves the cursor at the old cursor plus the
    stride, modulo the number of chunks, which is positive: the cursor is
    then inside the dataset.  On a recording of three chunks C0, C1, C2 read
    from the start in single-step mode with stride 1, three calls read the
    indices 0, 1, 2 in this order and leave C0, C1, C2 in the history; the
    cursor is back at 0 and the fourth call reads index 0 again. *)
Theorem cursor_advances_modulo :
  (forall s s' d stride loop pb b tr,
     ds s = Some d ->
     get_samples stride loop pb s = (Return b, s', tr) ->
     0 < shape0 d /\
     sample_index s' = (sample_index s + stride) mod shape0 d /\
     0 <= sample_index s' < shape0 d) /\
  (forall s d t pb (C0 C1 C2 : Chunk),
     ds s = Some d -> chunks d = [C0; C1; C2] -> ts_buffer s = Some t ->
     sample_index s = 0 -> buffer s = [] ->
     exists s3 tr3 b4 s4 tr4,
       ticks 3 1 0 pb s = (Return tt, s3, tr3) /\
       buffer s3 = [(Some C0, 0); (Some C1, 1); (Some C2, 2)] /\
       sample_index s3 = 0 /\
       get_samples 1 0 pb s3 = (Return b4, s4, tr4) /\
       data s4 = Some C0 /\
       buffer s4 = buffer s3 ++ [(Some C0, 0)]).
Proof.
  split.
  - intros s s' d stride loop pb b tr Hds H.
    destruct (get_samples_inv _ _ _ _ _ _ _ H)
      as (d' & t' & Hd & _ & _ & Hn & _ & _ & Hidx & _).
    assert (d' = d) by congruence. subst d'.
    pose proof (shape0_nonneg d).
    assert (0 < shape0 d) by lia.
    rewrite Hidx. split; [assumption|]. split; [reflexivity|].
    apply Z.mod_pos_bound. assumption.
  - intros s d t pb C0 C1 C2 Hds Hch Hts Hidx Hbuf.
    assert (Hn : shape0 d = 3) by (unfold shape0; now rewrite Hch).
    destruct (ticks_ok 3 s d t 1 0 pb) as (s3 & tr3 & H3); auto;
      [now left | lia | lia |].
    destruct (ticks_inv 3 _ _ _ _ _ _ _ _ Hds Hts H3)
      as (Hd3 & (t3 & Ht3) & _ & Hi3 & Hb3).
    rewrite Hidx, Hbuf in *.
    assert (Hl : appended_pairs 3 d 1 (data s) 0
                 = [(Some C0, 0); (Some C1, 1); (Some C2, 2)]).
    { destruct d as [ch at']. simpl in Hch. subst ch. reflexivity. }
    assert (Hc : cursor_after 3 d 1 0 = 0).
    { simpl. rewrite Hn. reflexivity. }
    rewrite Hl in Hb3. rewrite Hc in Hi3. simpl in Hb3.
    destruct (get_samples_ok s3 d t3 1 0 pb) as (b4 & s4 & tr4 & H4); auto;
      [now left | lia | lia |].
    destruct (get_samples_inv _ _ _ _ _ _ _ H4)
      as (d' & t' & Hd & _ & _ & _ & _ & (_ & Hdat & Hbuf4 & _) & _ & _).
    assert (d' = d) by congruence. subst d'.
    assert (Hf : fetched d s3 = Some C0).
    { unfold fetched. rewrite Hi3. destruct d as [ch at']. simpl in Hch.
      subst ch. reflexivity. }
    rewrite Hf, Hi3 in *.
    exists s3, tr3, b4, s4, tr4. repeat split; assumption.
Qed.

(** ** A fetch outside the dataset *)

(** C1 (amended): when the fetch of a call raises [IndexError], the message
    is printed and [data] keeps the chunk it held, whatever the arguments and
    however the call ends.  When the pacing step goes through (single-step
    mode, or a continuous mode in which [time.sleep] returns) and [ts_buffer]
    exists, the call goes on as after any fetch: the chunk held and the index
    are appended to the history and the event is set.  If moreover the
    dataset is not empty and the stride is not 0, the call returns with the
    cursor moved, and the next call finds the cursor inside the dataset and
    fetches from it. *)
Theorem fetch_fault_absorbed s d stride loop pb :
  ds s = Some d ->
  getitem d (sample_index s) = Raise IndexError ->
  (In (MsgInvalidSampleIndex (sample_index s))
      (stdout (state_of (get_samples stride loop pb) s)) /\
   data (state_of (get_samples stride loop pb) s) = data s) /\
  (forall t,
     ts_buffer s = Some t -> pacing_ok loop pb s ->
     buffer (state_of (get_samples stride loop pb) s)
     = buffer s ++ [(data s, sample_index s)] /\
     ts_buffer (state_of (get_samples stride loop pb) s)
     = Some (ts_append t (data s)) /\
     data_available (state_of (get_samples stride loop pb) s) = true) /\
  (forall t,
     ts_buffer s = Some t -> pacing_ok loop pb s ->
     shape0 d <> 0 -> stride <> 0 ->
     exists b s' tr,
       get_samples stride loop pb s = (Return b, s', tr) /\
       sample_index s' = (sample_index s + stride) mod shape0 d /\
       exists b2 s2 tr2 c,
         get_samples stride loop pb s' = (Return b2, s2, tr2) /\
         getitem d (sample_index s') = Return c /\ data s2 = Some c).
Proof.
  intros Hds Hf. split; [|split].
  - unfold state_of.
    destruct (get_samples stride loop pb s) as [[r s'] tr] eqn:H.
    unfold_monad. rewrite Hds in H. simpl in H. rewrite Hf in H.
    exec_in H; inversion H; subst; simpl; rewrite ?in_app_iff; simpl; tauto.
  - intros t Hts Hp. unfold state_of.
    destruct (get_samples stride loop pb s) as [[r s'] tr] eqn:H.
    unfold_monad. rewrite Hds in H. simpl in H. rewrite Hf in H.
    exec_in H; bool_to_prop; try congruence; try lia.
    all: try (destruct Hp as [->|[Hl [p [Hp1 Hp2]]]]; (lia || congruence)).
    all: inversion H; subst; clear H.
    all: replace t with t0 by congruence.
    all: simpl; repeat split; auto.
  - intros t Hts Hp Hn Hs.
    destruct (get_samples_ok s d t stride loop pb) as (b & s' & tr & H); auto.
    exists b, s', tr. split; [exact H|].
    destruct (get_samples_inv _ _ _ _ _ _ _ H)
      as (d' & t' & Hd & Ht & _ & _ & _ & (Hd1 & Hdat & Hbuf & Ht1 & Hev & Hp1) & Hidx & _).
    assert (d' = d) by congruence. assert (t' = t) by congruence. subst d' t'.
    split; [assumption|].
    destruct (get_samples_ok s' d (ts_append t (fetched d s)) stride loop pb)
      as (b2 & s2 & tr2 & H2); auto.
    { eapply pacing_ok_preserved; eauto. }
    pose proof (shape0_nonneg d).
    destruct (getitem_in_range d (sample_index s')) as (c & Hc & _).
    { rewrite Hidx. apply Z.mod_pos_bound. lia. }
    destruct (get_samples_inv _ _ _ _ _ _ _ H2)
      as (d' & t' & Hd' & _ & _ & _ & _ & (_ & Hdat2 & _) & _ & _).
    assert (d' = d) by congruence. subst d'.
    unfold fetched in Hdat2. rewrite Hc in Hdat2.
    exists b2, s2, tr2, c. auto.
Qed.

(** ** The returned flag *)

Lemma double_lt_one_pos (a st : Z) :
  0 < st ->
  (double_lt_one (Qdiv (inject_Z a) (inject_Z st)) = true
   <-> a * 2 ^ 54 < st * (2 ^ 54 - 1)).
Proof.
  intros Hst. unfold double_lt_one. rewrite negb_true_iff.
  destruct st as [|p|p]; try lia.
  assert (Hle : Qle below_one (inject_Z a / inject_Z (Z.pos p))
                <-> Z.pos p * (2 ^ 54 - 1) <= a * 2 ^ 54).
  { unfold Qle, below_one. cbn. lia. }
  destruct (Qle_bool below_one (inject_Z a / inject_Z (Z.pos p))) eqn:E.
  - apply Qle_bool_iff, Hle in E. split; [discriminate|lia].
  - split; [intros _|reflexivity].
    destruct (Z_lt_le_dec (a * 2 ^ 54) (Z.pos p * (2 ^ 54 - 1))) as [|Hge];
      [assumption|].
    apply Hle, Qle_bool_iff in Hge. congruence.
Qed.

Lemma double_lt_one_neg (a st : Z) :
  st < 0 -> 0 <= a ->
  double_lt_one (Qdiv (inject_Z a) (inject_Z st)) = true.
Proof.
  intros Hst Ha. unfold double_lt_one. rewrite negb_true_iff.
  destruct st as [|p|p]; try lia.
  destruct (Qle_bool below_one (inject_Z a / inject_Z (Z.neg p))) eqn:E;
    [|reflexivity].
  apply Qle_bool_iff in E. unfold Qle, below_one in E. cbn in E. lia.
Qed.

(** X17: the flag a call returns is
    [((index + stride) mod total_chunks) / stride < 1.0], a comparison of
    doubles, on the cursor as it is after the advance.  For a positive stride
    below 2^54 it says that [(index + stride) mod total_chunks] is below the
    stride, and for a larger one that this remainder times 2^54 is below the
    stride times 2^54 - 1; for a negative stride it always holds.  On the
    call that takes the cursor past the end of the dataset the flag is false
    if twice the stride is at most the number of chunks. *)
Theorem more_data_flag s s' d stride loop pb b tr :
  ds s = Some d ->
  get_samples stride loop pb s = (Return b, s', tr) ->
  b = double_lt_one (Qdiv (inject_Z ((sample_index s' + stride) mod shape0 d))
                          (inject_Z stride)) /\
  (0 < stride ->
   (b = true <->
    (sample_index s' + stride) mod shape0 d * 2 ^ 54 < stride * (2 ^ 54 - 1))) /\
  (0 < stride < 2 ^ 54 ->
   (b = true <-> (sample_index s' + stride) mod shape0 d < stride)) /\
  (stride < 0 -> b = true) /\
  (0 < stride -> 2 * stride <= shape0 d ->
   0 <= sample_index s < shape0 d -> shape0 d <= sample_index s + stride ->
   b = false).
Proof.
  intros Hds H.
  destruct (get_samples_inv _ _ _ _ _ _ _ H)
    as (d' & t' & Hd & _ & _ & Hn & _ & _ & Hidx & Hb).
  assert (d' = d) by congruence. subst d'.
  pose proof (shape0_nonneg d) as Hnn.
  split; [exact Hb|]. split; [|split; [|split]].
  - intros Hs. rewrite Hb. apply double_lt_one_pos. assumption.
  - intros Hs. rewrite Hb, double_lt_one_pos by lia. lia.
  - intros Hs. rewrite Hb. apply double_lt_one_neg; [assumption|].
    apply Z.mod_pos_bound. lia.
  - intros Hs H2 Hr Hw.
    destruct b; [|reflexivity]. symmetry in Hb.
    apply double_lt_one_pos in Hb; [|assumption].
    rewrite Hidx in Hb.
    assert (E1 : (sample_index s + stride) mod shape0 d
                 = sample_index s + stride - shape0 d).
    { symmetry. apply (Z.mod_unique_pos _ _ 1); lia. }
    rewrite E1 in Hb. rewrite Z.mod_small in Hb by lia. lia.
Qed.

(** ** Reset *)

(** C6 (amended): [reset] returns, and calling it twice leaves the object as
    calling it once does.  After every call the history list [buffer] is
    empty, the cursor is 0, [reset_flag] is raised and playback runs again;
    [ts_buffer] and [data] are as they were before the call. *)
Theorem reset_idempotent s :
  outcome_of reset s = Return tt /\
  state_of reset (state_of reset s) = state_of reset s /\
  buffer (state_of reset s) = [] /\
  sample_index (state_of reset s) = 0 /\
  reset_flag (state_of reset s) = true /\
  t_sampling (state_of reset s) = Running /\
  paused (state_of reset s) = false /\
  ts_buffer (state_of reset s) = ts_buffer s /\
  data (state_of reset s) = data s.
Proof. repeat split. Qed.

(** ** The ring of [ts_buffer] *)

Lemma ts_append_entries t (x : option Chunk) :
  (List.length (ts_entries t) <= ts_length t)%nat -> (1 <= ts_length t)%nat ->
  ts_length (ts_append t x) = ts_length t /\
  ts_entries (ts_append t x)
  = skipn (List.length (ts_entries t) + 1 - ts_length t) (ts_entries t ++ [x]).
Proof.
  intros Hle Hcap. unfold ts_append. simpl. split; [reflexivity|].
  destruct (Nat.ltb_spec (List.length (ts_entries t)) (ts_length t)) as [Hlt|Hge].
  - replace (List.length (ts_entries t) + 1 - ts_length t)%nat with 0%nat by lia.
    reflexivity.
  - replace (List.length (ts_entries t) + 1 - ts_length t)%nat with 1%nat by lia.
    destruct (ts_entries t) as [|e es]; [simpl in *; lia|]. reflexivity.
Qed.

Lemma ts_fold_entries (xs : list (option Chunk)) : forall t,
  (List.length (ts_entries t) <= ts_length t)%nat -> (1 <= ts_length t)%nat ->
  ts_length (fold_left ts_append xs t) = ts_length t /\
  ts_entries (fold_left ts_append xs t)
  = skipn (List.length (ts_entries t) + List.length xs - ts_length t)
          (ts_entries t ++ xs).
Proof.
  induction xs as [|x xs IH]; intros t Hle Hcap.
  - simpl. split; [reflexivity|].
    replace (List.length (ts_entries t) + 0 - ts_length t)%nat with 0%nat by lia.
    now rewrite app_nil_r.
  - simpl fold_left.
    destruct (ts_append_entries t x Hle Hcap) as [Hc He].
    assert (Hlen : List.length (ts_entries (ts_append t x))
                   = Nat.min (List.length (ts_entries t) + 1) (ts_length t)).
    { rewrite He, length_skipn, length_app. simpl. lia. }
    destruct (IH (ts_append t x)) as [Hc' He']; [lia | lia |].
    split; [congruence|].
    rewrite He', Hc, Hlen, He.
    set (k := (List.length (ts_entries t) + 1 - ts_length t)%nat).
    assert (Hk : (k <= List.length (ts_entries t ++ [x]))%nat).
    { rewrite length_app. simpl. lia. }
    replace (ts_entries t ++ x :: xs) with ((ts_entries t ++ [x]) ++ xs)
      by (now rewrite <- app_assoc).
    replace (skipn k (ts_entries t ++ [x]) ++ xs)
      with (skipn k ((ts_entries t ++ [x]) ++ xs)).
    + rewrite skipn_skipn. f_equal. simpl. unfold k. lia.
    + rewrite skipn_app.
      replace (k - List.length (ts_entries t ++ [x]))%nat with 0%nat by lia.
      reflexivity.
Qed.

(** The eviction law on the ring modelled for [TimeSeries]: after the chunks
    [xs] were appended to a new ring of capacity [C >= 1], it holds the last
    [min (length xs) C] of them in the order of the appends. *)
Lemma ts_buffer_law (xs : list (option Chunk)) (C : nat) shape :
  (1 <= C)%nat ->
  ts_entries (fold_left ts_append xs (TimeSeries_new C shape))
  = skipn (List.length xs - C) xs /\
  List.length (ts_entries (fold_left ts_append xs (TimeSeries_new C shape)))
  = Nat.min (List.length xs) C.
Proof.
  intros HC.
  destruct (ts_fold_entries xs (TimeSeries_new C shape)) as [_ He];
    [simpl; lia | simpl; lia |].
  simpl in He. rewrite He. split; [reflexivity|].
  rewrite length_skipn. lia.
Qed.

(** Along calls in a row [ts_buffer] obeys that law: it never holds more
    than its capacity, whatever the number of calls. *)
Lemma ticks_ts_buffer_bounded n s s' d t stride loop pb tr :
  ds s = Some d -> ts_buffer s = Some t ->
  (List.length (ts_entries t) <= ts_length t)%nat -> (1 <= ts_length t)%nat ->
  ticks n stride loop pb s = (Return tt, s', tr) ->
  exists t',
    ts_buffer s' = Some t' /\ ts_length t' = ts_length t /\
    List.length (ts_entries t')
    = Nat.min (List.length (ts_entries t) + n) (ts_length t).
Proof.
  intros Hds Hts Hle Hcap H.
  rewrite (ticks_ts_buffer n _ _ _ _ _ _ _ _ Hds Hts H).
  eexists. split; [reflexivity|].
  destruct (ts_fold_entries
              (map fst (appended_pairs n d stride (data s) (sample_index s)))
              t Hle Hcap) as [Hc He].
  split; [exact Hc|].
  rewrite He, length_skipn, length_app, length_map, appended_pairs_length. lia.
Qed.

End Properties.

(** ** The properties at work on the recordings above *)

Lemma get_samples_not_ready_witness :
  ds (@VirtualDAQ_init nat) = None /\
  get_samples 1 (-1) 1 (@VirtualDAQ_init nat)
  = (Raise RuntimeError, VirtualDAQ_init, []) /\
  (forall o : PyObj nat,
     is_dataset o = false -> state_of (load_dataset o) VirtualDAQ_init = VirtualDAQ_init) /\
  (forall d : Dataset nat,
     ds (state_of (load_dataset (ObjDataset d)) VirtualDAQ_init) = Some d).
Proof.
  split; [reflexivity|].
  exact (get_samples_not_ready (@VirtualDAQ_init nat) 1 (-1) 1 eq_refl).
Defined.

(** C7 as it is stated fails.  On a new object [load_dataset] raises
    [KeyError] on a dataset without attributes: it has not succeeded.  The
    call of [get_samples] that follows does not raise [RuntimeError] but
    [AttributeError], and it has put the first chunk in [data] and appended
    it to the history. *)
Lemma not_ready_ends_with_failed_load :
  ds (@VirtualDAQ_init nat) = None /\
  outcome_of (load_dataset (ObjDataset ds_bare)) VirtualDAQ_init = Raise KeyError /\
  outcome_of (get_samples 1 0 1)
    (state_of (load_dataset (ObjDataset ds_bare)) VirtualDAQ_init)
  = Raise AttributeError /\
  data (state_of (get_samples 1 0 1)
          (state_of (load_dataset (ObjDataset ds_bare)) VirtualDAQ_init))
  = Some 10%nat /\
  buffer (state_of (get_samples 1 0 1)
            (state_of (load_dataset (ObjDataset ds_bare)) VirtualDAQ_init))
  = [(Some 10%nat, 0)].
Proof. by_computation. Qed.

Lemma load_dataset_rejects_non_dataset_witness :
  is_dataset (ObjList [10; 11; 12]%nat) = false /\
  load_dataset (ObjList [10; 11; 12]%nat) VirtualDAQ_init
  = (Raise TypeError, VirtualDAQ_init, []).
Proof.
  split; [reflexivity|]. apply load_dataset_rejects_non_dataset. reflexivity.
Defined.

(** C9 as it is stated fails on a dataset that lacks the attributes: the
    error is a [KeyError], the dataset has been taken as [ds] all the same,
    and the next [get_samples] no longer raises [RuntimeError]. *)
Lemma load_dataset_without_attributes :
  is_dataset (ObjDataset ds_bare) = true /\
  attrs_get "sample_rate" (attrs ds_bare) = Raise KeyError /\
  outcome_of (load_dataset (ObjDataset ds_bare)) VirtualDAQ_init = Raise KeyError /\
  ds (state_of (load_dataset (ObjDataset ds_bare)) VirtualDAQ_init) = Some ds_bare /\
  outcome_of (get_samples 1 0 1)
    (state_of (load_dataset (ObjDataset ds_bare)) VirtualDAQ_init)
  = Raise AttributeError.
Proof. by_computation. Qed.

Lemma get_samples_rejects_loop_witness :
  ds loaded3 = Some ds3 /\ 5 <> -1 /\ 5 <> 0 /\ 5 <> 1 /\
  exists s' tr,
    get_samples 1 5 1 loaded3 = (Raise ValueError, s', tr) /\
    data s' = fetched ds3 loaded3 /\
    set_stdout (stdout loaded3) (set_data (data loaded3) s') = loaded3 /\
    Forall (fun x => buffer x = buffer loaded3 /\
                     ts_buffer x = ts_buffer loaded3 /\
                     data_available x = data_available loaded3 /\
                     sample_index x = sample_index loaded3) (tr ++ [s']).
Proof.
  split; [by_computation|]. do 3 (split; [lia|]).
  apply get_samples_rejects_loop; [by_computation | lia | lia | lia].
Defined.

(** C3 as it is stated fails: [get_samples(loop=5)] on a new object with
    [ds3] loaded raises [ValueError] after the fetch, and [data], which held
    nothing, holds the first chunk. *)
Lemma bad_loop_still_fetches :
  ds loaded3 = Some ds3 /\
  outcome_of (get_samples 1 5 1) loaded3 = Raise ValueError /\
  data loaded3 = None /\
  data (state_of (get_samples 1 5 1) loaded3) = Some 10%nat /\
  state_of (get_samples 1 5 1) loaded3 <> loaded3.
Proof. by_computation. Qed.

Lemma get_samples_zero_stride_witness :
  ds loaded3 = Some ds3 /\
  ts_buffer loaded3 = Some (TimeSeries_new 4096 (AttrNum 2, AttrNum 100)) /\
  exists s' tr,
    get_samples 0 0 1 loaded3 = (Raise ZeroDivisionError, s', tr) /\
    buffer s' = [(Some 10%nat, 0)] /\
    data_available s' = true /\
    sample_index s' = 0.
Proof.
  assert (H1 : ds loaded3 = Some ds3) by by_computation.
  assert (H2 : ts_buffer loaded3
               = Some (TimeSeries_new 4096 (AttrNum 2, AttrNum 100)))
    by by_computation.
  split; [exact H1|]. split; [exact H2|].
  destruct (get_samples_zero_stride loaded3 ds3 _ 1 H1 H2)
    as (s' & tr & H & Hb & _ & He & Hr).
  exists s', tr. split; [exact H|]. split; [exact Hb|]. split; [exact He|].
  apply Hr. by_computation.
Defined.

(** C10 as it is stated fails.  On the empty recording the call raises
    [ZeroDivisionError] out of the statement that moves the cursor, one
    statement before the more-data expression.  On [shrunk], whose cursor is
    outside the dataset, that statement goes through and moves the cursor
    from 2 to 0 before the more-data expression raises. *)
Lemma zero_stride_elsewhere :
  (ds loaded_empty = Some ds_empty /\
   outcome_of (get_samples 0 0 1) loaded_empty = Raise ZeroDivisionError /\
   data_available (state_of (get_samples 0 0 1) loaded_empty) = true /\
   advance ds_empty 0 (state_of (get_samples 0 0 1) loaded_empty)
   = (Raise ZeroDivisionError, state_of (get_samples 0 0 1) loaded_empty, [])) /\
  (ds shrunk = Some ds1 /\
   outcome_of (get_samples 0 0 1) shrunk = Raise ZeroDivisionError /\
   sample_index shrunk = 2 /\
   sample_index (state_of (get_samples 0 0 1) shrunk) = 0).
Proof. by_computation. Qed.

Lemma signal_follows_append_witness :
  data_available loaded3 = false /\
  In stepped3 (trace_of (get_samples 1 0 1) loaded3
               ++ [state_of (get_samples 1 0 1) loaded3]) /\
  data_available stepped3 = true /\
  exists d t,
    ds loaded3 = Some d /\ ts_buffer loaded3 = Some t /\
    data stepped3 = fetched d loaded3 /\
    buffer stepped3 = buffer loaded3 ++ [(fetched d loaded3, sample_index loaded3)] /\
    ts_buffer stepped3 = Some (ts_append t (fetched d loaded3)).
Proof.
  assert (Hin : In stepped3 (trace_of (get_samples 1 0 1) loaded3
                             ++ [state_of (get_samples 1 0 1) loaded3])).
  { apply in_or_app. right. left. by_computation. }
  assert (H0 : data_available loaded3 = false) by by_computation.
  assert (H1 : data_available stepped3 = true) by by_computation.
  split; [exact H0|]. split; [exact Hin|]. split; [exact H1|].
  exact (signal_follows_append loaded3 1 0 1 stepped3 H0 Hin H1).
Defined.

Lemma fetch_fault_absorbed_witness :
  ds shrunk = Some ds1 /\
  getitem ds1 (sample_index shrunk) = Raise IndexError /\
  pacing_ok 0 1 shrunk /\ shape0 ds1 <> 0 /\ 1 <> 0 /\
  In (MsgInvalidSampleIndex 2) (stdout (state_of (get_samples 1 0 1) shrunk)) /\
  buffer (state_of (get_samples 1 0 1) shrunk)
  = buffer shrunk ++ [(data shrunk, sample_index shrunk)] /\
  exists b s' tr,
    get_samples 1 0 1 shrunk = (Return b, s', tr) /\
    sample_index s' = (sample_index shrunk + 1) mod shape0 ds1.
Proof.
  assert (H1 : ds shrunk = Some ds1) by by_computation.
  assert (H2 : ts_buffer shrunk
               = Some (mkTimeSeries 4096 (AttrNum 2, AttrNum 100)
                         [Some 10; Some 11]%nat)) by by_computation.
  assert (H3 : getitem ds1 (sample_index shrunk) = Raise IndexError)
    by by_computation.
  assert (H4 : pacing_ok 0 1 shrunk) by (left; reflexivity).
  assert (H5 : shape0 ds1 <> 0) by by_computation.
  assert (H6 : 1 <> 0) by lia.
  do 5 (split; [assumption|]).
  destruct (fetch_fault_absorbed shrunk ds1 1 0 1 H1 H3) as ((Hmsg & _) & Hb & Hr).
  split; [exact Hmsg|].
  split; [exact (proj1 (Hb _ H2 H4))|].
  destruct (Hr _ H2 H4 H5 H6) as (b & s' & tr & H & Hidx & _).
  exists b, s', tr. split; [exact H|]. exact Hidx.
Defined.

(** C1 as it is stated fails.  On [shrunk] the fetch at index 2 raises
    [IndexError]; the call returns, but it has appended the chunk of the call
    before together with the index 2 and has set the event.  On the empty
    recording the fetch at index 0 raises [IndexError] too; the pair
    [(None, 0)] is appended, the event is set, and the call raises
    [ZeroDivisionError] to its caller. *)
Lemma fetch_fault_still_appends :
  (ds shrunk = Some ds1 /\
   getitem ds1 (sample_index shrunk) = Raise IndexError /\
   data_available shrunk = false /\
   outcome_of (get_samples 1 0 1) shrunk = Return true /\
   buffer (state_of (get_samples 1 0 1) shrunk)
   = buffer shrunk ++ [(Some 11%nat, 2)] /\
   data_available (state_of (get_samples 1 0 1) shrunk) = true) /\
  (ds loaded_empty = Some ds_empty /\
   getitem ds_empty (sample_index loaded_empty) = Raise IndexError /\
   data_available loaded_empty = false /\
   outcome_of (get_samples 1 0 1) loaded_empty = Raise ZeroDivisionError /\
   buffer (state_of (get_samples 1 0 1) loaded_empty) = [(None, 0)] /\
   data_available (state_of (get_samples 1 0 1) loaded_empty) = true).
Proof. by_computation. Qed.

Lemma buffer_keeps_every_pair_witness :
  ds loaded3 = Some ds3 /\
  ticks 2 1 0 1 loaded3
  = (Return tt, state_of (ticks 2 1 0 1) loaded3, trace_of (ticks 2 1 0 1) loaded3) /\
  buffer (state_of (ticks 2 1 0 1) loaded3)
  = buffer loaded3 ++ appended_pairs 2 ds3 1 (data loaded3) (sample_index loaded3) /\
  List.length (buffer (state_of (ticks 2 1 0 1) loaded3))
  = (List.length (buffer loaded3) + 2)%nat.
Proof.
  assert (H1 : ds loaded3 = Some ds3) by by_computation.
  assert (H2 : ts_buffer loaded3
               = Some (TimeSeries_new 4096 (AttrNum 2, AttrNum 100)))
    by by_computation.
  assert (H3 : ticks 2 1 0 1 loaded3
               = (Return tt, state_of (ticks 2 1 0 1) loaded3,
                  trace_of (ticks 2 1 0 1) loaded3)) by by_computation.
  split; [exact H1|]. split; [exact H3|].
  exact (buffer_keeps_every_pair 2 loaded3 _ ds3 _ 1 0 1 _ H1 H2 H3).
Defined.

(** C2 as it is stated fails.  [ts_buffer] is made for 4096 chunks; 4097
    single steps through [ds3] all return, and [buffer] then holds 4097
    pairs, which is more than 4096 and not min(4097, 4096). *)
Lemma buffer_outgrows_capacity :
  option_map ts_length (ts_buffer loaded3) = Some 4096%nat /\
  exists s' tr,
    ticks 4097 1 0 1 loaded3 = (Return tt, s', tr) /\
    List.length (buffer s') = 4097%nat /\
    List.length (buffer s') <> Nat.min 4097 4096.
Proof.
  assert (H1 : ds loaded3 = Some ds3) by by_computation.
  assert (H2 : ts_buffer loaded3
               = Some (TimeSeries_new 4096 (AttrNum 2, AttrNum 100)))
    by by_computation.
  split; [rewrite H2; reflexivity|].
  destruct (ticks_ok 4097 loaded3 ds3 _ 1 0 1 H1 H2) as (s' & tr & H).
  { left. reflexivity. }
  { by_computation. }
  { lia. }
  exists s', tr. split; [exact H|].
  destruct (ticks_inv 4097 _ _ _ _ _ _ _ _ H1 H2 H) as (_ & _ & _ & _ & Hb).
  assert (Hl : List.length (buffer s') = 4097%nat).
  { rewrite Hb, length_app, appended_pairs_length.
    replace (buffer loaded3) with (@nil (option nat * Z)) by by_computation.
    reflexivity. }
  split; [exact Hl|]. rewrite Hl, Nat.min_r by lia. lia.
Qed.

Lemma cursor_advances_modulo_witness :
  ds loaded3 = Some ds3 /\ chunks ds3 = [10; 11; 12]%nat /\
  sample_index loaded3 = 0 /\ buffer loaded3 = [] /\
  sample_index stepped3 = (sample_index loaded3 + 1) mod shape0 ds3 /\
  exists s3 s4,
    state_of (ticks 3 1 0 1) loaded3 = s3 /\
    buffer s3 = [(Some 10%nat, 0); (Some 11%nat, 1); (Some 12%nat, 2)] /\
    sample_index s3 = 0 /\
    state_of (get_samples 1 0 1) s3 = s4 /\
    buffer s4 = buffer s3 ++ [(Some 10%nat, 0)].
Proof.
  destruct (@cursor_advances_modulo nat example_clock) as [Hstep Hscenario].
  assert (H1 : ds loaded3 = Some ds3) by by_computation.
  assert (H2 : ts_buffer loaded3
               = Some (TimeSeries_new 4096 (AttrNum 2, AttrNum 100)))
    by by_computation.
  assert (H3 : sample_index loaded3 = 0) by by_computation.
  assert (H4 : buffer loaded3 = []) by by_computation.
  assert (H5 : get_samples 1 0 1 loaded3
               = (Return false, stepped3, trace_of (get_samples 1 0 1) loaded3))
    by by_computation.
  split; [exact H1|]. split; [reflexivity|]. split; [exact H3|].
  split; [exact H4|]. split.
  - exact (proj1 (proj2 (Hstep loaded3 stepped3 ds3 1 0 1%Q false _ H1 H5))).
  - destruct (Hscenario loaded3 ds3 _ 1%Q 10%nat 11%nat 12%nat H1 eq_refl H2 H3 H4)
      as (s3 & tr3 & b4 & s4 & tr4 & Ht & Hb3 & Hi3 & Hg & _ & Hb4).
    exists s3, s4. unfold state_of. rewrite Ht. simpl. rewrite Hg. simpl.
    repeat split; assumption.
Defined.

Lemma more_data_flag_witness :
  ds stepped3 = Some ds3 /\
  get_samples 1 0 1 stepped3
  = (Return true, state_of (get_samples 1 0 1) stepped3,
     trace_of (get_samples 1 0 1) stepped3) /\
  0 < 1 < 2 ^ 54 /\
  (true = true <->
   (sample_index (state_of (get_samples 1 0 1) stepped3) + 1) mod shape0 ds3 < 1).
Proof.
  assert (H1 : ds stepped3 = Some ds3) by by_computation.
  assert (H2 : get_samples 1 0 1 stepped3
               = (Return true, state_of (get_samples 1 0 1) stepped3,
                  trace_of (get_samples 1 0 1) stepped3)) by by_computation.
  assert (H3 : 0 < 1 < 2 ^ 54) by lia.
  split; [exact H1|]. split; [exact H2|]. split; [exact H3|].
  exact (proj1 (proj2 (proj2 (more_data_flag stepped3 _ ds3 1 0 1 true _ H1 H2))) H3).
Defined.

(** C4: the returned flag on the calls that take the cursor past the end.
    On the recording of one chunk every single step takes the cursor from 0
    past the end back to 0, and it returns true where the flag is to be false
    on that call.  On the recording of four chunks the four single steps
    from the start return false, false, true and false while the cursor goes
    to 1, 2, 3 and back to 0: the flag is false while chunks are left to
    read, against the comment "Return True if more data" of the code. *)
Theorem more_data_true_on_wrap :
  (ds loaded1 = Some ds1 /\ shape0 ds1 = 1 /\ sample_index loaded1 = 0 /\
   outcome_of (get_samples 1 0 1) loaded1 = Return true /\
   sample_index (state_of (get_samples 1 0 1) loaded1) = 0) /\
  (ds loaded4 = Some ds4 /\ shape0 ds4 = 4 /\ sample_index loaded4 = 0 /\
   outcome_of (get_samples 1 0 1) loaded4 = Return false /\
   sample_index (state_of (ticks 1 1 0 1) loaded4) = 1 /\
   outcome_of (get_samples 1 0 1) (state_of (ticks 1 1 0 1) loaded4) = Return false /\
   sample_index (state_of (ticks 2 1 0 1) loaded4) = 2 /\
   outcome_of (get_samples 1 0 1) (state_of (ticks 2 1 0 1) loaded4) = Return true /\
   sample_index (state_of (ticks 3 1 0 1) loaded4) = 3 /\
   outcome_of (get_samples 1 0 1) (state_of (ticks 3 1 0 1) loaded4) = Return false /\
   sample_index (state_of (ticks 4 1 0 1) loaded4) = 0).
Proof. by_computation. Qed.

(** C6 as it is stated fails on "all buffers": after one step through [ds3]
    a [reset] empties [buffer], but [ts_buffer] still holds the chunk and so
    does [data]. *)
Lemma reset_leaves_ts_buffer :
  ts_buffer stepped3
  = Some (mkTimeSeries 4096 (AttrNum 2, AttrNum 100) [Some 10%nat]) /\
  buffer (state_of reset stepped3) = [] /\
  ts_buffer (state_of reset stepped3) = ts_buffer stepped3 /\
  data (state_of reset stepped3) = Some 10%nat.
Proof. by_computation. Qed.

(** * Further properties of the methods *)

Section Coverage.

Context {Chunk : Type} {clock : TimeSleep}.
Implicit Types (s : VirtualDAQ Chunk) (d : Dataset Chunk) (t : TimeSeries Chunk).
Implicit Types (stride loop : Z) (pb : Q).

(** Symbolic run of a method inside [H], as before, with the tests that
    [load_dataset] makes on the attributes. *)
Ltac run_in H :=
  repeat (simpl in H;
          match type of H with
          | context [match ds ?s with _ => _ end] =>
              destruct (ds s) eqn:?
          | context [match getitem ?d ?i with _ => _ end] =>
              let Hc := fresh "Hfetch" in
              destruct (getitem_cases d i) as [[? Hc]|Hc]; rewrite Hc in H
          | context [match sample_period ?s with _ => _ end] =>
              destruct (sample_period s) eqn:?
          | context [match time_sleep ?p ?v with _ => _ end] =>
              destruct (time_sleep p v) as [[]|] eqn:?
          | context [match ts_buffer ?s with _ => _ end] =>
              destruct (ts_buffer s) eqn:?
          | context [match attrs_get ?k ?l with _ => _ end] =>
              destruct (attrs_get k l) eqn:?
          | context [match decode ?v with _ => _ end] =>
              destruct (decode v) eqn:?
          | context [match attr_div ?x ?y with _ => _ end] =>
              destruct (attr_div x y) eqn:?
          | context [if ?b then _ else _] =>
              destruct b eqn:?
          end).

Lemma getitem_empty d (i : Z) : shape0 d = 0 -> getitem d i = Raise IndexError.
Proof.
  intros Hn. unfold getitem. rewrite Hn.
  destruct (i <? 0) eqn:E.
  - apply Z.ltb_lt in E.
    destruct (Z.leb_spec 0 (i + 0)); [lia|]. reflexivity.
  - destruct (Z.leb_spec 0 i); simpl; [|reflexivity].
    destruct (Z.ltb_spec i 0); [lia|]. reflexivity.
Qed.

(** ** What a call of [get_samples] leaves alone *)

(** X2: whether it returns or raises, a call of [get_samples] leaves the
    dataset, the attributes read from it, the sample period and the pause,
    reset and thread state as they were, at its end and at every state in
    between. *)
Theorem get_samples_frame s stride loop pb :
  Forall (fun x =>
            ds x = ds s /\ sample_rate x = sample_rate s /\
            sample_chunk_size x = sample_chunk_size s /\
            daq_type x = daq_type s /\ num_channels x = num_channels s /\
            sample_period x = sample_period s /\ paused x = paused s /\
            reset_flag x = reset_flag s /\ reset_lock x = reset_lock s /\
            t_sampling x = t_sampling s)
         (trace_of (get_samples stride loop pb) s
          ++ [state_of (get_samples stride loop pb) s]).
Proof.
  unfold trace_of, state_of.
  destruct (get_samples stride loop pb s) as [[r s'] tr] eqn:H.
  unfold_monad. run_in H; inversion H; subst; clear H; simpl.
  all: repeat (constructor; [repeat split; simpl; congruence|]); constructor.
Qed.

(** X3: whether it returns or raises, a call of [get_samples] never removes
    or rewrites an entry of [buffer] and appends at most one pair, whose
    index is the cursor at the start of the call. *)
Theorem get_samples_buffer_grows s stride loop pb :
  let s' := state_of (get_samples stride loop pb) s in
  buffer s' = buffer s \/
  exists c, buffer s' = buffer s ++ [(c, sample_index s)].
Proof.
  unfold state_of.
  destruct (get_samples stride loop pb s) as [[r s'] tr] eqn:H.
  unfold_monad. run_in H; inversion H; subst; clear H; simpl; eauto.
Qed.

(** X4: none of the methods clears the data-available event: once set it
    stays set through [get_samples], [reset] and [load_dataset], whatever
    their outcome; [reset] and [load_dataset] do not touch it at all. *)
Theorem event_never_cleared s :
  (forall stride loop pb,
     data_available s = true ->
     Forall (fun x => data_available x = true)
            (trace_of (get_samples stride loop pb) s
             ++ [state_of (get_samples stride loop pb) s])) /\
  data_available (state_of reset s) = data_available s /\
  (forall o, data_available (state_of (load_dataset o) s) = data_available s).
Proof.
  split; [|split].
  - intros stride loop pb Hset. unfold trace_of, state_of.
    destruct (get_samples stride loop pb s) as [[r s'] tr] eqn:H.
    unfold_monad. run_in H; inversion H; subst; clear H; simpl.
    all: repeat (constructor; [simpl; auto|]); constructor.
  - reflexivity.
  - intros o. unfold state_of.
    destruct (load_dataset o s) as [[r s'] tr] eqn:H.
    destruct o; simpl in H; try (inversion H; subst; reflexivity).
    unfold reset, close, run, bind, lift, modify in H.
    run_in H; inversion H; subst; reflexivity.
Qed.

(** ** Edge cases of [get_samples] *)

(** X5: on an empty dataset every call with an accepted pacing argument
    raises [ZeroDivisionError], whatever the stride.  The fetch has failed
    and was reported, and yet the pair of the chunk held before and of the
    cursor has been appended and the event is set; the cursor has not
    moved. *)
Theorem get_samples_empty_dataset s d t stride loop pb :
  ds s = Some d -> shape0 d = 0 -> ts_buffer s = Some t ->
  pacing_ok loop pb s ->
  exists s' tr,
    get_samples stride loop pb s = (Raise ZeroDivisionError, s', tr) /\
    In (MsgInvalidSampleIndex (sample_index s)) (stdout s') /\
    data s' = data s /\
    buffer s' = buffer s ++ [(data s, sample_index s)] /\
    ts_buffer s' = Some (ts_append t (data s)) /\
    data_available s' = true /\
    sample_index s' = sample_index s.
Proof.
  intros Hds Hn Hts Hp.
  pose proof (getitem_empty d (sample_index s) Hn) as Hf.
  destruct (get_samples stride loop pb s) as [[r s'] tr] eqn:H.
  unfold_monad. rewrite Hds in H. simpl in H. rewrite Hf in H.
  run_in H; bool_to_prop; try congruence; try lia.
  all: try (destruct Hp as [->|[Hl [p [Hp1 Hp2]]]]; (lia || congruence)).
  all: inversion H; subst; clear H.
  all: eexists; eexists; split; [reflexivity|].
  all: replace t with t0 by congruence.
  all: simpl; rewrite ?in_app_iff; simpl; repeat split; auto.
Qed.

(** X6: while [ts_buffer] does not exist (no [load_dataset] has got to its
    last statement yet) a call with a dataset set and an accepted pacing
    argument raises [AttributeError] after it has appended the pair to
    [buffer]: the history has grown although the event is not set and the
    cursor has not moved. *)
Theorem get_samples_without_ts_buffer s d stride loop pb :
  ds s = Some d -> ts_buffer s = None -> pacing_ok loop pb s ->
  exists s' tr,
    get_samples stride loop pb s = (Raise AttributeError, s', tr) /\
    data s' = fetched d s /\
    buffer s' = buffer s ++ [(fetched d s, sample_index s)] /\
    data_available s' = data_available s /\
    sample_index s' = sample_index s.
Proof.
  intros Hds Hts Hp.
  destruct (get_samples stride loop pb s) as [[r s'] tr] eqn:H.
  unfold_monad. rewrite Hds in H.
  run_in H; bool_to_prop; try congruence; try lia.
  all: try (destruct Hp as [->|[Hl [p [Hp1 Hp2]]]]; (lia || congruence)).
  all: inversion H; subst; clear H.
  all: eexists; eexists; split; [reflexivity|].
  all: unfold fetched; rewrite Hfetch; simpl; repeat split; auto.
Qed.

(** X7: in a continuous mode, when the call of [time.sleep] raises,
    [get_samples] raises the same exception, after the fetch: nothing is
    appended, the event and the cursor are untouched and no delay is put
    down as slept. *)
Theorem get_samples_sleep_raises s d p e stride loop pb :
  ds s = Some d -> loop = -1 \/ loop = 1 ->
  sample_period s = Some p -> time_sleep p pb = Raise e ->
  exists s' tr,
    get_samples stride loop pb s = (Raise e, s', tr) /\
    data s' = fetched d s /\
    buffer s' = buffer s /\ ts_buffer s' = ts_buffer s /\
    data_available s' = data_available s /\
    sample_index s' = sample_index s /\ slept s' = slept s.
Proof.
  intros Hds Hl Hp Hraise.
  destruct (get_samples stride loop pb s) as [[r s'] tr] eqn:H.
  unfold_monad. rewrite Hds in H.
  run_in H; bool_to_prop; try congruence; try lia.
  all: inversion H; subst; clear H.
  all: replace e with e0 by congruence.
  all: eexists; eexists; split; [reflexivity|].
  all: unfold fetched; rewrite Hfetch; simpl; repeat split; auto.
Qed.

(** ** Pacing *)

(** X8: a call that returns in a continuous mode has slept exactly once, for
    the sample period times the playback speed; a call that returns in
    single-step mode has not slept and has printed the stride. *)
Theorem get_samples_pacing s s' stride loop pb b tr :
  get_samples stride loop pb s = (Return b, s', tr) ->
  (loop = 0 /\ slept s' = slept s /\ In (MsgStepped stride) (stdout s')) \/
  ((loop = -1 \/ loop = 1) /\
   exists p, sample_period s = Some p /\ slept s' = slept s ++ [(p, pb)]).
Proof.
  intros H. unfold_monad.
  run_in H; try discriminate; inversion H; subst; clear H; bool_to_prop.
  all: simpl; rewrite ?in_app_iff; simpl; eauto 8.
Qed.

(** ** The cursor over several calls *)

Lemma cursor_after_closed k : forall d stride (i : Z),
  0 <= i < shape0 d ->
  cursor_after k d stride i = (i + Z.of_nat k * stride) mod shape0 d.
Proof.
  induction k as [|k IH]; intros d stride i Hi.
  - simpl. rewrite Z.add_0_r, Z.mod_small; auto.
  - cbn [cursor_after]. rewrite IH by (apply Z.mod_pos_bound; lia).
    rewrite Zplus_mod_idemp_l. f_equal. lia.
Qed.

(** X9: [k] calls in a row that return, started with the cursor inside the
    dataset, leave the cursor at the old cursor plus [k] times the stride,
    modulo the number of chunks.  The cursor is back where it started
    whenever [k] times the stride is a multiple of the number of chunks, so
    in particular after as many calls as there are chunks, whatever the
    stride. *)
Theorem ticks_cursor s s' d t stride loop pb tr (k : nat) :
  ds s = Some d -> ts_buffer s = Some t ->
  0 <= sample_index s < shape0 d ->
  ticks k stride loop pb s = (Return tt, s', tr) ->
  sample_index s' = (sample_index s + Z.of_nat k * stride) mod shape0 d /\
  ((Z.of_nat k * stride) mod shape0 d = 0 -> sample_index s' = sample_index s) /\
  (Z.of_nat k = shape0 d -> sample_index s' = sample_index s).
Proof.
  intros Hds Hts Hi H.
  destruct (ticks_inv k _ _ _ _ _ _ _ _ Hds Hts H) as (_ & _ & _ & Hc & _).
  rewrite cursor_after_closed in Hc by assumption.
  assert (Hback : (Z.of_nat k * stride) mod shape0 d = 0 ->
                  sample_index s' = sample_index s).
  { intros Hz. rewrite Hc, Z.add_mod, Hz, Z.add_0_r, Z.mod_mod by lia.
    apply Z.mod_small. assumption. }
  split; [exact Hc|]. split; [exact Hback|].
  intros Hk. apply Hback. rewrite Hk, Z.mul_comm. apply Z.mod_mul. lia.
Qed.

(** ** The content of the history *)

Lemma appended_pairs_consistent k : forall d stride (held : option Chunk) (i : Z),
  0 <= i < shape0 d ->
  Forall (fun p => 0 <= snd p < shape0 d /\
                   exists c, fst p = Some c /\ getitem d (snd p) = Return c)
         (appended_pairs k d stride held i).
Proof.
  induction k as [|k IH]; intros d stride held i Hi; simpl; constructor.
  - simpl. split; [assumption|].
    destruct (getitem_in_range d i Hi) as (c & Hc & _). rewrite Hc. eauto.
  - apply IH. apply Z.mod_pos_bound. lia.
Qed.

(** X10: over calls in a row that return, started with the cursor inside the
    dataset, every pair appended to [buffer] is a chunk of the dataset
    together with the index it was read at: the index is inside the dataset
    and the dataset holds that chunk there. *)
Theorem ticks_history_consistent s s' d t stride loop pb tr (k : nat) :
  ds s = Some d -> ts_buffer s = Some t ->
  0 <= sample_index s < shape0 d ->
  ticks k stride loop pb s = (Return tt, s', tr) ->
  exists l,
    buffer s' = buffer s ++ l /\ List.length l = k /\
    Forall (fun p => 0 <= snd p < shape0 d /\
                     exists c, fst p = Some c /\ getitem d (snd p) = Return c) l.
Proof.
  intros Hds Hts Hi H.
  destruct (ticks_inv k _ _ _ _ _ _ _ _ Hds Hts H) as (_ & _ & _ & _ & Hb).
  eexists. split; [exact Hb|]. split.
  - apply appended_pairs_length.
  - apply appended_pairs_consistent. assumption.
Qed.

(** ** Reset followed by a call *)

(** X11: after [reset] the next call reads the first chunk again: on a
    dataset that is not empty, with an accepted pacing argument and a stride
    other than 0, it returns with the first chunk in [data], the history
    reduced to the pair of that chunk and index 0, and the cursor at the
    stride modulo the number of chunks. *)
Theorem reset_then_get_samples s d t stride loop pb :
  ds s = Some d -> ts_buffer s = Some t -> 0 < shape0 d ->
  pacing_ok loop pb s -> stride <> 0 ->
  exists c b s' tr,
    nth_error (chunks d) 0 = Some c /\
    get_samples stride loop pb (state_of reset s) = (Return b, s', tr) /\
    data s' = Some c /\
    buffer s' = [(Some c, 0)] /\
    sample_index s' = stride mod shape0 d.
Proof.
  intros Hds Hts Hn Hp Hs.
  destruct (getitem_in_range d 0) as (c & Hc & Hnth); [lia|].
  destruct (get_samples_ok (state_of reset s) d t stride loop pb)
    as (b & s' & tr & H); auto; try lia.
  destruct (get_samples_inv _ _ _ _ _ _ _ H)
    as (d' & t' & Hd & _ & _ & _ & _ & (_ & Hdat & Hbuf & _) & Hidx & _).
  assert (d' = d) by (simpl in Hd; congruence). subst d'.
  unfold fetched in *. simpl in Hdat, Hbuf, Hidx. rewrite Hc in *.
  exists c, b, s', tr. repeat split; assumption.
Qed.

(** ** The returned flag with stride 1 *)

(** X12: a call with stride 1 returns true exactly when it leaves the cursor
    on the last chunk of the dataset, and false on every other call. *)
Theorem more_data_stride_one s s' d loop pb b tr :
  ds s = Some d ->
  get_samples 1 loop pb s = (Return b, s', tr) ->
  (b = true <-> sample_index s' = shape0 d - 1).
Proof.
  intros Hds H.
  destruct (get_samples_inv _ _ _ _ _ _ _ H)
    as (d' & t' & Hd & _ & _ & Hn & _ & _ & Hidx & Hb).
  assert (d' = d) by congruence. subst d'.
  pose proof (shape0_nonneg d) as Hnn.
  assert (Hr : 0 <= sample_index s' < shape0 d).
  { rewrite Hidx. apply Z.mod_pos_bound. lia. }
  rewrite Hb, double_lt_one_pos by lia.
  pose proof (Z.mod_pos_bound (sample_index s' + 1) (shape0 d)) as Hm.
  split; intros Hx.
  - assert (Hz : (sample_index s' + 1) mod shape0 d = 0) by lia.
    destruct (Z.eq_dec (sample_index s') (shape0 d - 1)) as [|Hne]; [assumption|].
    rewrite Z.mod_small in Hz by lia. lia.
  - rewrite Hx. replace (shape0 d - 1 + 1) with (shape0 d) by lia.
    rewrite Z.mod_same by lia. lia.
Qed.

(** ** Loading a dataset *)


(** X14: when [load_dataset] raises on an h5py dataset, the dataset has been
    taken all the same: [ds] is the new dataset, the cursor is 0 and the
    history list is empty, while the sample period and [ts_buffer] are still
    those of before the call. *)
Theorem load_dataset_raises_half_loaded s s' d e tr :
  load_dataset (ObjDataset d) s = (Raise e, s', tr) ->
  ds s' = Some d /\ sample_index s' = 0 /\ buffer s' = [] /\
  sample_period s' = sample_period s /\ ts_buffer s' = ts_buffer s /\
  data s' = data s.
Proof.
  intros H.
  unfold load_dataset, reset, close, run, bind, lift, modify in H.
  run_in H; inversion H; subst; clear H; repeat split.
Qed.

(** X15: [load_dataset] returns only for an h5py dataset that has the four
    attributes, with bytes for the device type and numbers for the sample
    size and the sample rate. *)
Theorem load_dataset_returns_only_if (o : PyObj Chunk) s s' tr :
  load_dataset o s = (Return tt, s', tr) ->
  exists d rate size tag channels,
    o = ObjDataset d /\
    attrs_get "sample_rate" (attrs d) = Return (AttrNum rate) /\
    attrs_get "sample_size" (attrs d) = Return (AttrNum size) /\
    attrs_get "daq_type" (attrs d) = Return (AttrBytes tag) /\
    attrs_get "num_channels" (attrs d) = Return channels.
Proof.
  intros H. destruct o as [d| | | |]; try discriminate H.
  unfold load_dataset, reset, close, run, bind, lift, modify in H.
  run_in H; try discriminate H.
  repeat match goal with
         | Hd : decode ?v = Return _ |- _ =>
             destruct v; simpl in Hd; try discriminate Hd;
             match type of Hd with
             | context [if ?c then _ else _] => destruct c
             end; try discriminate Hd; inversion Hd; subst; clear Hd
         | Hd : attr_div ?x ?y = Return _ |- _ =>
             destruct x, y; simpl in Hd; try discriminate Hd; clear Hd
         end.
  do 5 eexists. repeat split; eassumption.
Qed.

(** X16: after a [load_dataset] that returned, on a dataset that is not
    empty, the first single step with a stride other than 0 returns with the
    first chunk of the new dataset in [data] and the history reduced to the
    pair of that chunk and index 0, whatever was played before. *)
Theorem load_then_get_samples (o : PyObj Chunk) s s1 tr1 d stride pb :
  load_dataset o s = (Return tt, s1, tr1) ->
  o = ObjDataset d -> 0 < shape0 d -> stride <> 0 ->
  exists c b s' tr,
    nth_error (chunks d) 0 = Some c /\
    get_samples stride 0 pb s1 = (Return b, s', tr) /\
    data s' = Some c /\ buffer s' = [(Some c, 0)] /\
    sample_index s' = stride mod shape0 d.
Proof.
  intros H -> Hn Hs.
  assert (Hpost : ds s1 = Some d /\ sample_index s1 = 0 /\ buffer s1 = [] /\
                  exists t, ts_buffer s1 = Some t).
  { unfold load_dataset, reset, close, run, bind, lift, modify in H.
    run_in H; try discriminate H. inversion H; subst; clear H.
    simpl. eauto. }
  destruct Hpost as (Hds & Hi & Hb & t & Hts).
  destruct (getitem_in_range d 0) as (c & Hc & Hnth); [lia|].
  destruct (get_samples_ok s1 d t stride 0 pb)
    as (b & s' & tr & H'); auto; try lia; [now left|].
  destruct (get_samples_inv _ _ _ _ _ _ _ H')
    as (d' & t' & Hd & _ & _ & _ & _ & (_ & Hdat & Hbuf & _) & Hidx & _).
  assert (d' = d) by congruence. subst d'.
  unfold fetched in *. rewrite Hi in *. rewrite Hb in *. rewrite Hc in *.
  exists c, b, s', tr. repeat split; assumption.
Qed.

End Coverage.

(** ** These properties at work on the recordings above *)

Lemma get_samples_empty_dataset_witness :
  ds loaded_empty = Some ds_empty /\ shape0 ds_empty = 0 /\
  pacing_ok 0 1 loaded_empty /\
  exists s' tr,
    get_samples 1 0 1 loaded_empty = (Raise ZeroDivisionError, s', tr) /\
    buffer s' = buffer loaded_empty ++ [(data loaded_empty, sample_index loaded_empty)] /\
    data_available s' = true.
Proof.
  assert (H1 : ds loaded_empty = Some ds_empty) by by_computation.
  assert (H2 : shape0 ds_empty = 0) by by_computation.
  assert (H3 : ts_buffer loaded_empty
               = Some (TimeSeries_new 4096 (AttrNum 2, AttrNum 100)))
    by by_computation.
  assert (H4 : pacing_ok 0 1 loaded_empty) by (left; reflexivity).
  do 3 (split; [assumption|]).
  destruct (get_samples_empty_dataset loaded_empty ds_empty _ 1 0 1 H1 H2 H3 H4)
    as (s' & tr & H & _ & _ & Hb & _ & He & _).
  exists s', tr. repeat split; assumption.
Defined.

Lemma get_samples_without_ts_buffer_witness :
  let s := state_of (load_dataset (ObjDataset ds_bare)) VirtualDAQ_init in
  ds s = Some ds_bare /\ ts_buffer s = None /\ pacing_ok 0 1 s /\
  exists s' tr,
    get_samples 1 0 1 s = (Raise AttributeError, s', tr) /\
    buffer s' = buffer s ++ [(fetched ds_bare s, sample_index s)] /\
    data_available s' = data_available s.
Proof.
  intros s.
  assert (H1 : ds s = Some ds_bare) by by_computation.
  assert (H2 : ts_buffer s = None) by by_computation.
  assert (H3 : pacing_ok 0 1 s) by (left; reflexivity).
  do 3 (split; [assumption|]).
  destruct (get_samples_without_ts_buffer s ds_bare 1 0 1 H1 H2 H3)
    as (s' & tr & H & _ & Hb & He & _).
  exists s', tr. repeat split; assumption.
Defined.

Lemma get_samples_sleep_raises_witness :
  ds loaded3 = Some ds3 /\ (-1 = -1 \/ -1 = 1) /\
  sample_period loaded3 = Some (Finite (Qdiv 100 1000)) /\
  time_sleep (Finite (Qdiv 100 1000)) (-1) = Raise ValueError /\
  exists s' tr,
    get_samples 1 (-1) (-1) loaded3 = (Raise ValueError, s', tr) /\
    buffer s' = buffer loaded3 /\ slept s' = slept loaded3.
Proof.
  assert (H1 : ds loaded3 = Some ds3) by by_computation.
  assert (H2 : -1 = -1 \/ -1 = 1) by (left; reflexivity).
  assert (H3 : sample_period loaded3 = Some (Finite (Qdiv 100 1000)))
    by by_computation.
  assert (H4 : time_sleep (Finite (Qdiv 100 1000)) (-1) = Raise ValueError)
    by by_computation.
  do 4 (split; [assumption|]).
  destruct (get_samples_sleep_raises loaded3 ds3 _ _ 1 (-1) (-1) H1 H2 H3 H4)
    as (s' & tr & H & _ & Hb & _ & _ & _ & Hsl).
  exists s', tr. repeat split; assumption.
Defined.

Lemma get_samples_pacing_witness :
  get_samples 1 (-1) 2 loaded3
  = (Return false, state_of (get_samples 1 (-1) 2) loaded3,
     trace_of (get_samples 1 (-1) 2) loaded3) /\
  ((-1 = 0 /\
    slept (state_of (get_samples 1 (-1) 2) loaded3) = slept loaded3 /\
    In (MsgStepped 1) (stdout (state_of (get_samples 1 (-1) 2) loaded3))) \/
   ((-1 = -1 \/ -1 = 1) /\
    exists p, sample_period loaded3 = Some p /\
              slept (state_of (get_samples 1 (-1) 2) loaded3)
              = slept loaded3 ++ [(p, 2%Q)])).
Proof.
  assert (H : get_samples 1 (-1) 2 loaded3
              = (Return false, state_of (get_samples 1 (-1) 2) loaded3,
                 trace_of (get_samples 1 (-1) 2) loaded3)) by by_computation.
  split; [exact H|].
  exact (get_samples_pacing loaded3 _ 1 (-1) 2 false _ H).
Defined.

Lemma ticks_cursor_witness :
  ds loaded3 = Some ds3 /\ 0 <= sample_index loaded3 < shape0 ds3 /\
  ticks 3 2 0 1 loaded3
  = (Return tt, state_of (ticks 3 2 0 1) loaded3, trace_of (ticks 3 2 0 1) loaded3) /\
  Z.of_nat 3 = shape0 ds3 /\
  sample_index (state_of (ticks 3 2 0 1) loaded3) = sample_index loaded3.
Proof.
  assert (H1 : ds loaded3 = Some ds3) by by_computation.
  assert (H2 : ts_buffer loaded3
               = Some (TimeSeries_new 4096 (AttrNum 2, AttrNum 100)))
    by by_computation.
  assert (H3 : 0 <= sample_index loaded3 < shape0 ds3) by by_computation.
  assert (H4 : ticks 3 2 0 1 loaded3
               = (Return tt, state_of (ticks 3 2 0 1) loaded3,
                  trace_of (ticks 3 2 0 1) loaded3)) by by_computation.
  assert (H5 : Z.of_nat 3 = shape0 ds3) by by_computation.
  do 4 (split; [assumption|]).
  exact (proj2 (proj2 (ticks_cursor loaded3 _ ds3 _ 2 0 1 _ 3 H1 H2 H3 H4)) H5).
Defined.

Lemma ticks_history_consistent_witness :
  ds loaded3 = Some ds3 /\ 0 <= sample_index loaded3 < shape0 ds3 /\
  ticks 4 1 0 1 loaded3
  = (Return tt, state_of (ticks 4 1 0 1) loaded3, trace_of (ticks 4 1 0 1) loaded3) /\
  exists l,
    buffer (state_of (ticks 4 1 0 1) loaded3) = buffer loaded3 ++ l /\
    List.length l = 4%nat /\
    Forall (fun p => 0 <= snd p < shape0 ds3 /\
                     exists c, fst p = Some c /\ getitem ds3 (snd p) = Return c) l.
Proof.
  assert (H1 : ds loaded3 = Some ds3) by by_computation.
  assert (H2 : ts_buffer loaded3
               = Some (TimeSeries_new 4096 (AttrNum 2, AttrNum 100)))
    by by_computation.
  assert (H3 : 0 <= sample_index loaded3 < shape0 ds3) by by_computation.
  assert (H4 : ticks 4 1 0 1 loaded3
               = (Return tt, state_of (ticks 4 1 0 1) loaded3,
                  trace_of (ticks 4 1 0 1) loaded3)) by by_computation.
  do 3 (split; [assumption|]).
  exact (ticks_history_consistent loaded3 _ ds3 _ 1 0 1 _ 4 H1 H2 H3 H4).
Defined.

Lemma reset_then_get_samples_witness :
  ds stepped3 = Some ds3 /\ 0 < shape0 ds3 /\ pacing_ok 0 1 stepped3 /\ 1 <> 0 /\
  exists c b s' tr,
    nth_error (chunks ds3) 0 = Some c /\
    get_samples 1 0 1 (state_of reset stepped3) = (Return b, s', tr) /\
    data s' = Some c /\ buffer s' = [(Some c, 0)] /\
    sample_index s' = 1 mod shape0 ds3.
Proof.
  assert (H1 : ds stepped3 = Some ds3) by by_computation.
  assert (H2 : ts_buffer stepped3
               = Some (mkTimeSeries 4096 (AttrNum 2, AttrNum 100) [Some 10%nat]))
    by by_computation.
  assert (H3 : 0 < shape0 ds3) by by_computation.
  assert (H4 : pacing_ok 0 1 stepped3) by (left; reflexivity).
  assert (H5 : 1 <> 0) by lia.
  do 4 (split; [assumption|]).
  exact (reset_then_get_samples stepped3 ds3 _ 1 0 1 H1 H2 H3 H4 H5).
Defined.

Lemma more_data_stride_one_witness :
  ds stepped3 = Some ds3 /\
  get_samples 1 0 1 stepped3
  = (Return true, state_of (get_samples 1 0 1) stepped3,
     trace_of (get_samples 1 0 1) stepped3) /\
  (true = true <->
   sample_index (state_of (get_samples 1 0 1) stepped3) = shape0 ds3 - 1).
Proof.
  assert (H1 : ds stepped3 = Some ds3) by by_computation.
  assert (H2 : get_samples 1 0 1 stepped3
               = (Return true, state_of (get_samples 1 0 1) stepped3,
                  trace_of (get_samples 1 0 1) stepped3)) by by_computation.
  split; [exact H1|]. split; [exact H2|].
  exact (more_data_stride_one stepped3 _ ds3 0 1 true _ H1 H2).
Defined.


Lemma load_dataset_raises_half_loaded_witness :
  load_dataset (ObjDataset ds_bare) stepped3
  = (Raise KeyError, state_of (load_dataset (ObjDataset ds_bare)) stepped3,
     trace_of (load_dataset (ObjDataset ds_bare)) stepped3) /\
  ds (state_of (load_dataset (ObjDataset ds_bare)) stepped3) = Some ds_bare /\
  buffer (state_of (load_dataset (ObjDataset ds_bare)) stepped3) = [] /\
  ts_buffer (state_of (load_dataset (ObjDataset ds_bare)) stepped3)
  = ts_buffer stepped3.
Proof.
  assert (H : load_dataset (ObjDataset ds_bare) stepped3
              = (Raise KeyError,
                 state_of (load_dataset (ObjDataset ds_bare)) stepped3,
                 trace_of (load_dataset (ObjDataset ds_bare)) stepped3))
    by by_computation.
  split; [exact H|].
  destruct (load_dataset_raises_half_loaded stepped3 _ ds_bare KeyError _ H)
    as (Hd & _ & Hb & _ & Ht & _).
  split; [exact Hd|]. split; [exact Hb|]. exact Ht.
Defined.

Lemma load_dataset_returns_only_if_witness :
  load_dataset (ObjDataset ds3) VirtualDAQ_init
  = (Return tt, loaded3, trace_of (load_dataset (ObjDataset ds3)) VirtualDAQ_init) /\
  exists d rate size tag channels,
    ObjDataset ds3 = ObjDataset d /\
    attrs_get "sample_rate" (attrs d) = Return (AttrNum rate) /\
    attrs_get "sample_size" (attrs d) = Return (AttrNum size) /\
    attrs_get "daq_type" (attrs d) = Return (AttrBytes tag) /\
    attrs_get "num_channels" (attrs d) = Return channels.
Proof.
  assert (H : load_dataset (ObjDataset ds3) VirtualDAQ_init
              = (Return tt, loaded3,
                 trace_of (load_dataset (ObjDataset ds3)) VirtualDAQ_init))
    by by_computation.
  split; [exact H|].
  exact (load_dataset_returns_only_if (ObjDataset ds3) VirtualDAQ_init _ _ H).
Defined.

Lemma load_then_get_samples_witness :
  load_dataset (ObjDataset ds3) stepped3
  = (Return tt, state_of (load_dataset (ObjDataset ds3)) stepped3,
     trace_of (load_dataset (ObjDataset ds3)) stepped3) /\
  0 < shape0 ds3 /\ 2 <> 0 /\
  exists c b s' tr,
    nth_error (chunks ds3) 0 = Some c /\
    get_samples 2 0 1 (state_of (load_dataset (ObjDataset ds3)) stepped3)
    = (Return b, s', tr) /\
    data s' = Some c /\ buffer s' = [(Some c, 0)] /\
    sample_index s' = 2 mod shape0 ds3.
Proof.
  assert (H : load_dataset (ObjDataset ds3) stepped3
              = (Return tt, state_of (load_dataset (ObjDataset ds3)) stepped3,
                 trace_of (load_dataset (ObjDataset ds3)) stepped3))
    by by_computation.
  assert (H2 : 0 < shape0 ds3) by by_computation.
  assert (H3 : 2 <> 0) by lia.
  do 3 (split; [assumption|]).
  exact (load_then_get_samples (ObjDataset ds3) stepped3 _ _ ds3 2 1 H eq_refl H2 H3).
Defined.
